(** * website-checker: the site Inspector and the Batch Runner of [app.py]

    A shallow embedding of [check_website] and [main] and the properties
    of the specification that are settled on it.

    Conventions of the embedding.
    - A Python [str] is a [string] whose characters are code points
      0..255 (one [ascii] per code point, so the copyright glyph U+00A9 is
      the single character ["169"%char]).  On this range [str.lower],
      [str.strip], [\d], [.] and [re.I] are exactly the functions below.
    - The [results] dictionary is a [gmap string value].
    - The collaborators ([requests.get], [time.time], [BeautifulSoup],
      the iteration order of [set]) are the fields of an [Env].
    - A float is the rational it denotes; [round(x, 2)] rounds to the
      nearest hundredth, ties to even.
    - [main] runs in a [World]: the input file as [csv.reader] yields it,
      the output file as the rows handed to [csv.DictWriter], a log of the
      blocks that opened the output file, and the printed lines.  Of the
      faults of the file system only the missing input file, the one
      [main] handles, is part of the model. *)

From Stdlib Require Import ZArith QArith Ascii String Permutation.
From stdpp Require Import gmap strings list fin_maps.

Local Open Scope Z_scope.

(** ** Python strings *)

Module Str.

Definition code (c : ascii) : N := N_of_ascii c.

(** [c.lower()] for a code point below 256: A-Z, and the Latin-1
    capitals U+00C0..U+00DE except the multiplication sign U+00D7. *)
Definition lower_char (c : ascii) : ascii :=
  let n := code c in
  if ((65 <=? n) && (n <=? 90))%N
     || ((192 <=? n) && (n <=? 222) && negb (n =? 215))%N
  then ascii_of_N (n + 32) else c.

Fixpoint lower (s : string) : string :=
  match s with
  | EmptyString => EmptyString
  | String c s' => String (lower_char c) (lower s')
  end.

(** [s.startswith(p)] *)
Fixpoint startswith (p s : string) : bool :=
  match p, s with
  | EmptyString, _ => true
  | String a p', String b s' => if ascii_dec a b then startswith p' s' else false
  | String _ _, EmptyString => false
  end.

(** [p in s] *)
Fixpoint contains (p s : string) : bool :=
  startswith p s ||
  match s with
  | EmptyString => false
  | String _ s' => contains p s'
  end.

Fixpoint drop (n : nat) (s : string) : string :=
  match n, s with
  | O, _ => s
  | S n', String _ s' => drop n' s'
  | S _, EmptyString => EmptyString
  end.

(** [s[:n]] *)
Fixpoint take (n : nat) (s : string) : string :=
  match n, s with
  | S n', String c s' => String c (take n' s')
  | _, _ => EmptyString
  end.

Definition len (s : string) : nat := String.length s.

(** [c.isspace()] for a code point below 256. *)
Definition is_space (c : ascii) : bool :=
  let n := code c in
  ((9 <=? n) && (n <=? 13) || (28 <=? n) && (n <=? 32)
   || (n =? 133) || (n =? 160))%N.

Fixpoint lstrip (s : string) : string :=
  match s with
  | String c s' => if is_space c then lstrip s' else s
  | EmptyString => EmptyString
  end.

(** [rstrip]: a character is kept when it is not a space or when
    something is kept after it. *)
Fixpoint rstrip (s : string) : string :=
  match s with
  | EmptyString => EmptyString
  | String c s' =>
      match rstrip s' with
      | EmptyString => if is_space c then EmptyString else String c EmptyString
      | r => String c r
      end
  end.

(** [s.strip()] *)
Definition strip (s : string) : string := rstrip (lstrip s).

(** [sep.join(l)] *)
Fixpoint join (sep : string) (l : list string) : string :=
  match l with
  | [] => ""
  | [x] => x
  | x :: l' => x +:+ sep +:+ join sep l'
  end.

(** The longest prefix of [s] whose characters satisfy [f], and the rest. *)
Fixpoint span (f : ascii -> bool) (s : string) : string * string :=
  match s with
  | String c s' =>
      if f c then let '(a, b) := span f s' in (String c a, b) else ("", s)
  | EmptyString => ("", "")
  end.

Definition in_range (lo hi : N) (c : ascii) : bool :=
  ((lo <=? code c) && (code c <=? hi))%N.

(** [\d] on code points below 256 *)
Definition is_digit : ascii -> bool := in_range 48 57.
Definition is_lower_az : ascii -> bool := in_range 97 122.
Definition is_upper_az : ascii -> bool := in_range 65 90.

End Str.

(** ** The three regular expressions of [check_website] *)

Module Re.
Import Str.

(** The class [[a-z0-9_\-]] of [theme_pattern]. *)
Definition theme_char (c : ascii) : bool :=
  is_lower_az c || is_digit c
  || bool_decide (c = "_"%char) || bool_decide (c = "-"%char).

(** The class [[a-zA-Z0-9_\-]] of [plugin_pattern]. *)
Definition plugin_char (c : ascii) : bool :=
  is_lower_az c || is_upper_az c || is_digit c
  || bool_decide (c = "_"%char) || bool_decide (c = "-"%char).

(** A match of [prefix([cls]+)/] anchored at the head of [s]: the group
    and the length of the whole match.  The greedy [+] takes the longest
    run; a shorter run is followed by a class character, never by ["/"],
    so backtracking finds nothing more. *)
Definition slug_at (prefix : string) (cls : ascii -> bool) (s : string)
  : option (string * nat) :=
  if startswith prefix s then
    let '(slug, rest) := span cls (drop (len prefix) s) in
    match slug, rest with
    | String _ _, String "/"%char _ => Some (slug, (len prefix + len slug + 1)%nat)
    | _, _ => None
    end
  else None.

(** [re.search(prefix([cls]+)/, s)]: group 1 of the leftmost match. *)
Fixpoint search_slug (prefix : string) (cls : ascii -> bool) (s : string)
  : option string :=
  match slug_at prefix cls s with
  | Some (slug, _) => Some slug
  | None =>
      match s with
      | EmptyString => None
      | String _ s' => search_slug prefix cls s'
      end
  end.

(** [re.findall(prefix([cls]+)/, s)]: group 1 of every match, left to
    right, the scan resuming where the previous match ended ([skip]
    counts the characters of that match still to pass). *)
Fixpoint findall_slug_from (skip : nat) (prefix : string)
    (cls : ascii -> bool) (s : string) : list string :=
  match s with
  | EmptyString => []
  | String _ s' =>
      match skip with
      | S k => findall_slug_from k prefix cls s'
      | O =>
          match slug_at prefix cls s with
          | Some (slug, n) => slug :: findall_slug_from (Nat.pred n) prefix cls s'
          | None => findall_slug_from O prefix cls s'
          end
      end
  end.

Definition findall_slug := findall_slug_from O.

(** [theme_pattern = r'wp-content/themes/([a-z0-9_\-]+)/'] *)
Definition search_theme : string -> option string :=
  search_slug "wp-content/themes/" theme_char.

(** [plugin_pattern = r'wp-content/plugins/([a-zA-Z0-9_\-]+)/'] *)
Definition findall_plugins : string -> list string :=
  findall_slug "wp-content/plugins/" plugin_char.

Definition glyph : ascii := "169"%char.
Definition newline : ascii := "010"%char.

(** The alternation [(?:copyright|©)] at the head of [s]: what follows it. *)
Definition keyword_at (s : string) : option string :=
  if startswith "copyright" s then Some (drop 9 s)
  else match s with
       | String c s' => if ascii_dec c glyph then Some s' else None
       | EmptyString => None
       end.

(** [(20\d{2})] at the head of [s]. *)
Definition year_at (s : string) : option string :=
  match s with
  | String "2" (String "0" (String d1 (String d2 _))) =>
      if is_digit d1 && is_digit d2
      then Some (String "2" (String "0" (String d1 (String d2 ""))))
      else None
  | _ => None
  end.

(** [.*?(20\d{2})] at the head of [s]: the lazy [.*?] passes as few
    characters as possible, and [.] passes no line feed. *)
Fixpoint lazy_year (s : string) : option string :=
  match year_at s with
  | Some y => Some y
  | None =>
      match s with
      | EmptyString => None
      | String c s' => if ascii_dec c newline then None else lazy_year s'
      end
  end.

Definition copyright_at (s : string) : option string :=
  match keyword_at s with
  | Some rest => lazy_year rest
  | None => None
  end.

(** [re.search(r'(?:copyright|©).*?(20\d{2})', s)]: group 1 of the
    leftmost match. *)
Fixpoint search_copyright (s : string) : option string :=
  match copyright_at s with
  | Some y => Some y
  | None =>
      match s with
      | EmptyString => None
      | String _ s' => search_copyright s'
      end
  end.

(** Some [20\d{2}] stands somewhere in [s]. *)
Fixpoint contains_year (s : string) : bool :=
  match year_at s with
  | Some _ => true
  | None =>
      match s with
      | EmptyString => false
      | String _ s' => contains_year s'
      end
  end.

End Re.

(** ** Values, floats and the [results] dictionary *)

(** [round(x, ndigits)] on the rational [x]: the nearest multiple of
    [10^-ndigits], a tie going to the even one. *)
Definition round_half_even (x : Q) : Z :=
  let n := Qnum x in
  let d := Z.pos (Qden x) in
  let q := n / d in
  let r := n mod d in
  match 2 * r ?= d with
  | Lt => q
  | Gt => q + 1
  | Eq => if Z.even q then q else q + 1
  end.

Definition py_round (x : Q) (ndigits : nat) : Q :=
  let m := inject_Z (10 ^ Z.of_nat ndigits) in
  Qred (inject_Z (round_half_even (x * m)) / m).

Inductive value : Type :=
| VBool (b : bool)
| VInt (n : Z)
| VFloat (x : Q)
| VStr (s : string).

Abbreviation dict := (gmap string value).

(** ** The collaborators *)

Inductive outcome (A : Type) : Type :=
| Raised (msg : string)
| Returned (a : A).
Arguments Raised {A} msg.
Arguments Returned {A} a.

Record Response := { status_code : Z; text : string }.

(** What [check_website] reads of a parsed document: [soup.title] and its
    [.string], and the [meta] tags in document order with their attributes. *)
Record Soup := {
  title : option (option string);
  metas : list (gmap string string)
}.

(** One call of [check_website] sees: the two readings of [time.time()],
    [requests.get(url, timeout=10)] (which raises or returns),
    [BeautifulSoup(text, 'html.parser')], and the order in which
    [list(set(...))] enumerates a set. *)
Record Env := {
  time_start : Q;
  time_end : Q;
  requests_get : string -> outcome Response;
  BeautifulSoup : string -> outcome Soup;
  list_of_set : gset string -> list string
}.

(** [list(s)] enumerates each member of [s] once, in some order. *)
Definition set_order_ok (env : Env) : Prop :=
  forall X : gset string, list_of_set env X ≡ₚ elements X.

(** ** The body of the [try] block: state and exceptions *)

Module Try.

Definition M (A : Type) : Type := dict -> outcome A * dict.

Definition ret {A} (a : A) : M A := fun d => (Returned a, d).

Definition bind {A B} (m : M A) (k : A -> M B) : M B :=
  fun d =>
    match m d with
    | (Raised e, d') => (Raised e, d')
    | (Returned a, d') => k a d'
    end.

(** [results[k] = v] *)
Definition set_item (k : string) (v : value) : M unit :=
  fun d => (Returned tt, <[k := v]> d).

(** A call of a collaborator, whose exception propagates. *)
Definition call {A} (o : outcome A) : M A := fun d => (o, d).

Definition when (b : bool) (m : M unit) : M unit :=
  if b then m else ret tt.

End Try.

#[global] Instance try_ret : MRet Try.M := @Try.ret.
#[global] Instance try_bind : MBind Try.M := fun A B k m => Try.bind m k.

(** ** [check_website] *)

Definition truthy (s : string) : bool := negb (bool_decide (s = "")).

(** [soup.find('meta', attrs={'name': n})] *)
Definition find_meta (n : string) (soup : Soup) : option (gmap string string) :=
  List.find (fun tag => bool_decide (tag !! "name" = Some n)) (metas soup).

(** [re.compile(r'WordPress', re.I).search(v)] *)
Definition matches_wordpress (v : string) : bool :=
  Str.contains "wordpress" (Str.lower v).

(** [soup.find('meta', attrs={'name': 'generator',
    'content': re.compile(r'WordPress', re.I)})] *)
Definition find_generator (soup : Soup) : option (gmap string string) :=
  List.find (fun tag =>
               bool_decide (tag !! "name" = Some "generator")
               && from_option matches_wordpress false (tag !! "content"))
            (metas soup).

Definition is_some {A} (o : option A) : bool :=
  match o with Some _ => true | None => false end.

(** Lines 8-27. *)
Definition initial_results (url : string) : dict :=
  <["has_viewport" := VBool false]> (
  <["is_https" := VBool false]> (
  <["has_pixel" := VBool false]> (
  <["has_analytics" := VBool false]> (
  <["has_beaver_builder" := VBool false]> (
  <["has_elementor" := VBool false]> (
  <["has_shopify" := VBool false]> (
  <["has_woocommerce" := VBool false]> (
  <["copyright_year" := VStr ""]> (
  <["theme" := VStr ""]> (
  <["meta_description" := VStr ""]> (
  <["site_title" := VStr ""]> (
  <["status" := VStr "Error"]> (
  <["load_time_seconds" := VInt 0]> (
  <["plugin_names" := VStr ""]> (
  <["plugin_count" := VInt 0]> (
  <["is_wordpress" := VBool false]> (
  <["url" := VStr url]> ∅))))))))))))))))).

(** Lines 30-31: the URL that is fetched. *)
Definition fetch_url (url : string) : string :=
  if negb (Str.startswith "http" url) then "https://" +:+ url else url.

(** Lines 43-96, the inspection of a 200 response once it is parsed. *)
Definition inspect_parsed (env : Env) (response : Response) (soup : Soup)
  : Try.M unit :=
  let html_content := Str.lower (text response) in
  match title soup with
  | Some title_string =>
      Try.set_item "site_title"
        (VStr (match title_string with
               | Some s => if truthy s then Str.strip s else ""
               | None => ""
               end))
  | None => Try.ret tt
  end ;;
  match find_meta "description" soup with
  | Some meta_desc =>
      match meta_desc !! "content" with
      | Some c =>
          Try.when (truthy c) (Try.set_item "meta_description" (VStr (Str.strip c)))
      | None => Try.ret tt
      end
  | None => Try.ret tt
  end ;;
  (if Str.contains "wp-content" html_content
   then Try.set_item "is_wordpress" (VBool true)
   else Try.when (is_some (find_generator soup))
          (Try.set_item "is_wordpress" (VBool true))) ;;
  match Re.search_theme html_content with
  | Some theme_match => Try.set_item "theme" (VStr theme_match)
  | None => Try.ret tt
  end ;;
  match Re.search_copyright html_content with
  | Some copyright_match => Try.set_item "copyright_year" (VStr copyright_match)
  | None => Try.ret tt
  end ;;
  let plugins := Re.findall_plugins html_content in
  let unique_plugins := list_of_set env (list_to_set plugins) in
  Try.set_item "plugin_count" (VInt (Z.of_nat (length unique_plugins))) ;;
  Try.set_item "plugin_names" (VStr (Str.join ", " unique_plugins)) ;;
  Try.set_item "has_woocommerce" (VBool (Str.contains "woocommerce" html_content)) ;;
  Try.set_item "has_shopify" (VBool (Str.contains "shopify" html_content)) ;;
  Try.set_item "has_elementor" (VBool (Str.contains "elementor" html_content)) ;;
  Try.set_item "has_beaver_builder"
    (VBool (Str.contains "beaver-builder" html_content)) ;;
  Try.set_item "has_analytics"
    (VBool (Str.contains "googletagmanager" html_content
            || Str.contains "google-analytics" html_content)) ;;
  Try.set_item "has_pixel"
    (VBool (Str.contains "facebook-pixel" html_content
            || Str.contains "fbevents.js" html_content)) ;;
  Try.when (is_some (find_meta "viewport" soup))
    (Try.set_item "has_viewport" (VBool true)).

(** Lines 42-96. *)
Definition inspect (env : Env) (response : Response) : Try.M unit :=
  soup ← Try.call (BeautifulSoup env (text response));
  inspect_parsed env response soup.

(** Lines 30-96, the [try] block. *)
Definition try_block (env : Env) (url : string) : Try.M unit :=
  let url := fetch_url url in
  Try.set_item "is_https" (VBool (Str.startswith "https" url)) ;;
  let start_time := time_start env in
  response ← Try.call (requests_get env url);
  let end_time := time_end env in
  Try.set_item "load_time_seconds" (VFloat (py_round (end_time - start_time) 2)) ;;
  Try.set_item "status" (VInt (status_code response)) ;;
  Try.when (status_code response =? 200) (inspect env response).

(** Lines 98-100, the [except Exception as e] handler. *)
Definition handler (e : string) (results : dict) : dict :=
  <["plugin_names" := VStr ""]> (<["status" := VStr ("Error: " +:+ e)]> results).

Definition check_website (env : Env) (url : string) : dict :=
  match try_block env url (initial_results url) with
  | (Returned _, results) => results
  | (Raised e, results) => handler e results
  end.

(** Where [check_website] raised, and the message of the exception:
    in [requests.get], or in the parser, which runs on a 200 response. *)
Inductive stage : Type := Fetch | Parse.

Definition raised (env : Env) (url : string) : option (stage * string) :=
  match requests_get env (fetch_url url) with
  | Raised e => Some (Fetch, e)
  | Returned response =>
      if status_code response =? 200 then
        match BeautifulSoup env (text response) with
        | Raised e => Some (Parse, e)
        | Returned _ => None
        end
      else None
  end.

(** The response whose body [check_website] inspects: one with status
    200 that the parser accepts. *)
Definition inspected (env : Env) (url : string) : option Response :=
  match requests_get env (fetch_url url) with
  | Raised _ => None
  | Returned response =>
      if status_code response =? 200 then
        match BeautifulSoup env (text response) with
        | Raised _ => None
        | Returned _ => Some response
        end
      else None
  end.

(** The deduplicated set of plugin slugs of a record: those matched in
    the lower-cased body that was inspected, none otherwise. *)
Definition plugin_set (env : Env) (url : string) : gset string :=
  match inspected env url with
  | Some response => list_to_set (Re.findall_plugins (Str.lower (text response)))
  | None => ∅
  end.

(** The document has a [meta] tag named [generator] whose content
    matches [WordPress], letter case ignored. *)
Definition has_generator_meta (soup : Soup) : Prop :=
  exists tag c,
    tag ∈ metas soup
    /\ tag !! "name" = Some "generator"
    /\ tag !! "content" = Some c
    /\ matches_wordpress c = true.

(** The text [© 2021 Example Corp]. *)
Definition glyph_2021 : string := String Re.glyph " 2021 Example Corp".

(** [y] is a year [20dd] that stands in [s] after the keyword
    [copyright] or the glyph, with no line feed and no other [20dd]
    starting between the keyword and it. *)
Definition year_follows_keyword (s y : string) : Prop :=
  exists pre kw mid post d1 d2,
    s = pre +:+ kw +:+ mid +:+ y +:+ post
    /\ (kw = "copyright" \/ kw = String Re.glyph "")
    /\ y = String "2" (String "0" (String d1 (String d2 "")))
    /\ Str.is_digit d1 = true /\ Str.is_digit d2 = true
    /\ Str.contains (String Re.newline "") mid = false
    /\ forall m1 m2, mid = m1 +:+ m2 -> m2 <> "" ->
                     Re.year_at (m2 +:+ y +:+ post) = None.

(** The dictionary after line 33 and after line 39. *)
Definition started (url : string) : dict :=
  <["is_https" := VBool (Str.startswith "https" (fetch_url url))]>
    (initial_results url).

Definition elapsed (env : Env) : value :=
  VFloat (py_round (time_end env - time_start env) 2).

Definition responded (env : Env) (url : string) (response : Response) : dict :=
  <["status" := VInt (status_code response)]>
    (<["load_time_seconds" := elapsed env]> (started url)).

(** Sample surroundings: a server that is never reached, [requests.get]
    raising [e] some ten seconds after it started; and a server that
    answers with [code] and [body], parsed as [soup]. *)
Definition unreachable (e : string) : Env :=
  {| time_start := 0;
     time_end := 1001 # 100;
     requests_get := fun _ => Raised e;
     BeautifulSoup := fun _ => Returned {| title := None; metas := [] |};
     list_of_set := elements |}.

Definition serving (code : Z) (body : string) (soup : Soup) : Env :=
  {| time_start := 0;
     time_end := 1234 # 1000;
     requests_get := fun _ => Returned {| status_code := code; text := body |};
     BeautifulSoup := fun _ => Returned soup;
     list_of_set := elements |}.

Definition read_timeout : string :=
  "HTTPSConnectionPool(host='example.com', port=443): Read timed out. (read timeout=10)".

Definition no_tags : Soup := {| title := None; metas := [] |}.

(** Three properties of a computation of the [try] block: it leaves
    every dictionary that satisfies [P] satisfying [P], whether it returns
    or raises; it never raises; when it returns, [results[k]] is [v]. *)
Definition preserves {A} (P : dict -> Prop) (m : Try.M A) : Prop :=
  forall d, P d -> P (m d).2.

Definition safe {A} (m : Try.M A) : Prop :=
  forall d, exists a, (m d).1 = Returned a.

Definition assigns {A} (k : string) (v : value) (m : Try.M A) : Prop :=
  forall d a, (m d).1 = Returned a -> (m d).2 !! k = Some v.

(** ** [main]: the Batch Runner *)

(** A printed line is an f-string: literal text and interpolated values.
    [FmtPercent index total] is the interpolation of
    [round(index/total*100, 1)]: the quotient, the product and the
    rounding are float operations of Python, whose result the model does
    not compute; it keeps the two operands. *)
Inductive frag : Type :=
| Lit (s : string)
| Fmt (v : value)
| FmtPercent (index total : nat).

(** One [with open(output_file, mode)] block of [main]. *)
Inductive file_event : Type :=
| WroteHeader (header : list value)       (* mode 'w', [writeheader] *)
| Appended (rows : list (list value)).    (* mode 'a', one [writerow] per row *)

(** The files and streams [main] touches.  [websites_csv] is the input
    file as [csv.reader] reads it, row by row ([None]: no such file);
    [results_csv] holds the rows of the output file, each cell the value
    handed to the writer ([None]: no such file); [output_log] records the
    blocks that opened the output file; [stdout] the printed lines. *)
Record World := {
  websites_csv : option (list (list string));
  results_csv : option (list (list value));
  output_log : list file_event;
  stdout : list (list frag)
}.

Definition input_file : string := "websites.csv".
Definition output_file : string := "results.csv".
Definition BATCH_SIZE : nat := 100.

Definition fieldnames : list string :=
  [ "url"; "status"; "load_time_seconds";
    "site_title"; "meta_description"; "copyright_year";
    "is_wordpress"; "theme"; "plugin_count"; "plugin_names";
    "has_woocommerce"; "has_shopify"; "has_elementor"; "has_beaver_builder";
    "has_analytics"; "has_pixel";
    "is_https"; "has_viewport" ].

Definition print (line : list frag) (w : World) : World :=
  {| websites_csv := websites_csv w;
     results_csv := results_csv w;
     output_log := output_log w;
     stdout := stdout w ++ [line] |}.

(** Lines 135-137: create or truncate the output file, write the header. *)
Definition write_header (w : World) : World :=
  let header := VStr <$> fieldnames in
  {| websites_csv := websites_csv w;
     results_csv := Some [header];
     output_log := output_log w ++ [WroteHeader header];
     stdout := stdout w |}.

(** [DictWriter.writerow(res)]: the cells of [res] in the order of
    [fieldnames] (a missing key gives the writer's [restval], ['']). *)
Definition writerow (res : dict) : list value :=
  (fun key => default (VStr "") (res !! key)) <$> fieldnames.

(** Lines 168-171: append the rows of the batch to the output file. *)
Definition append_batch (batch_results : list dict) (w : World) : World :=
  let rows := writerow <$> batch_results in
  {| websites_csv := websites_csv w;
     results_csv := Some (default [] (results_csv w) ++ rows);
     output_log := output_log w ++ [Appended rows];
     stdout := stdout w |}.

(** Lines 151-153. *)
Definition ensure_keys (result : dict) : dict :=
  foldl (fun r key => match r !! key with
                      | Some _ => r
                      | None => <[key := VStr ""]> r
                      end) result fieldnames.

(** [result[key]] for a key that [ensure_keys] made present. *)
Definition getitem (result : dict) (key : string) : value :=
  default (VStr "") (result !! key).

(** [result[key]] where the value is a [str] ([site_title], [plugin_names]). *)
Definition getstr (result : dict) (key : string) : string :=
  match result !! key with Some (VStr s) => s | _ => "" end.

(** Python truthiness of a value. *)
Definition truth (v : value) : bool :=
  match v with
  | VBool b => b
  | VInt n => negb (n =? 0)
  | VFloat x => negb (Qeq_bool x 0)
  | VStr s => truthy s
  end.

Definition yes_no (v : value) : frag := Lit (if truth v then "YES" else "No").

Fixpoint str_mul (s : string) (n : nat) : string :=
  match n with
  | O => ""
  | S n' => s +:+ str_mul s n'
  end.

Definition nl : string := String "010" "".

Definition rule : list frag := [Fmt (VStr (str_mul "=" 60))].

(** Lines 143-146. *)
Definition print_progress (index total_websites : nat) (url : string)
    (w : World) : World :=
  print rule (
  print [Lit "Checking: "; Fmt (VStr url)] (
  print [Lit "Progress: ["; Fmt (VInt (Z.of_nat index)); Lit "/";
         Fmt (VInt (Z.of_nat total_websites)); Lit "] (";
         FmtPercent index total_websites; Lit "%)"] (
  print (Lit nl :: rule) w))).

(** Lines 158-163: the display, with the title cut at 50 characters and
    the plugin list at 60. *)
Definition print_details (result : dict) (w : World) : World :=
  let site_title := getstr result "site_title" in
  print [Lit "  Health:   HTTPS: "; yes_no (getitem result "is_https");
         Lit " | Mobile: "; yes_no (getitem result "has_viewport");
         Lit " | Time: "; Fmt (getitem result "load_time_seconds"); Lit "s"] (
  print [Lit "  Tech:     Woo: "; yes_no (getitem result "has_woocommerce");
         Lit " | Shop: "; yes_no (getitem result "has_shopify");
         Lit " | GA: "; yes_no (getitem result "has_analytics");
         Lit " | Pixel: "; yes_no (getitem result "has_pixel")] (
  print [Lit "  Plugins:  "; Fmt (getitem result "plugin_count"); Lit " (";
         Fmt (VStr (Str.take 60 (getstr result "plugin_names"))); Lit "...)"] (
  print [Lit "  Theme:    "; Fmt (getitem result "theme")] (
  print [Lit "  WP:       "; Fmt (getitem result "is_wordpress")] (
  print (if (50 <? Str.len site_title)%nat
         then [Lit "  Title:    "; Fmt (VStr (Str.take 50 site_title)); Lit "..."]
         else [Lit "  Title:    "; Fmt (VStr site_title)]) w))))).

(** Lines 141-172, the loop over [enumerate(websites, 1)]; [envs index]
    is what the collaborators do during the call for that index. *)
Fixpoint check_all (envs : nat -> Env) (total_websites index : nat)
    (websites : list string) (batch_results : list dict) (w : World) : World :=
  match websites with
  | [] => w
  | url :: rest =>
      let w := print_progress index total_websites url w in
      let result := check_website (envs index) url in
      let result := ensure_keys result in
      let batch_results := batch_results ++ [result] in
      let w := print_details result w in
      if (BATCH_SIZE <=? length batch_results)%nat || (index =? total_websites)%nat
      then
        let w := print [Lit nl; Lit "[Saving Batch of ";
                        Fmt (VInt (Z.of_nat (length batch_results)));
                        Lit " results to "; Fmt (VStr output_file); Lit " ...]"] w in
        let w := append_batch batch_results w in
        check_all envs total_websites (S index) rest [] w
      else check_all envs total_websites (S index) rest batch_results w
  end.

(** Lines 115-117: the first cell of every non-empty row, stripped. *)
Definition read_websites (rows : list (list string)) : list string :=
  flat_map (fun row => match row with
                       | [] => []
                       | cell :: _ => [Str.strip cell]
                       end) rows.

Definition main (envs : nat -> Env) (w : World) : World :=
  let w := print [Lit "Reading from "; Fmt (VStr input_file); Lit "..."] w in
  match websites_csv w with
  | None => print [Lit "Error: "; Fmt (VStr input_file); Lit " not found."] w
  | Some rows =>
      let websites := read_websites rows in
      let total_websites := length websites in
      let w := print [Lit "Found "; Fmt (VInt (Z.of_nat total_websites));
                      Lit " websites. Starting check..."] w in
      let w := write_header w in
      let w := check_all envs total_websites 1 websites [] w in
      print rule (
      print [Lit "Results saved to "; Fmt (VStr output_file)] (
      print [Lit "DONE! All "; Fmt (VInt (Z.of_nat total_websites));
             Lit " websites checked."] (
      print (Lit nl :: rule) w)))
  end.

(** The records of a run: what [check_website] returns for each URL,
    the calls numbered from [index]. *)
Fixpoint records (envs : nat -> Env) (index : nat) (websites : list string)
  : list dict :=
  match websites with
  | [] => []
  | url :: rest => check_website (envs index) url :: records envs (S index) rest
  end.

(** The batches that the loop flushes, given the records still to come
    and those already in the buffer. *)
Fixpoint batches (total_websites index : nat) (batch_results : list dict)
    (coming : list dict) : list (list dict) :=
  match coming with
  | [] => []
  | result :: rest =>
      let batch_results := batch_results ++ [result] in
      if (BATCH_SIZE <=? length batch_results)%nat || (index =? total_websites)%nat
      then batch_results :: batches total_websites (S index) [] rest
      else batches total_websites (S index) batch_results rest
  end.

(** The sizes of those batches depend on the counts alone. *)
Fixpoint batch_sizes (total_websites index buffered coming : nat) : list nat :=
  match coming with
  | O => []
  | S rest =>
      if (BATCH_SIZE <=? S buffered)%nat || (index =? total_websites)%nat
      then S buffered :: batch_sizes total_websites (S index) 0 rest
      else batch_sizes total_websites (S index) (S buffered) rest
  end.

(** A page whose title is longer than the 50 characters displayed. *)
Definition long_title : string :=
  "An unusually long page title that runs well past fifty characters".

Definition titled : Env :=
  serving 200 "<title>An unusually long page title that runs well past fifty characters</title>"
    {| title := Some (Some long_title); metas := [] |}.

(** The cell in row [i], column [j] of a list of rows. *)
Definition cell_at (rows : list (list value)) (i j : nat) : option value :=
  match rows !! i with
  | Some row => row !! j
  | None => None
  end.

(** A world with no input file and no output file. *)
Definition empty_world : World :=
  {| websites_csv := None; results_csv := None; output_log := []; stdout := [] |}.

(** A world whose input file lists [n] times the same site. *)
Definition world_with (n : nat) : World :=
  {| websites_csv := Some (replicate n ["example.com"]);
     results_csv := None; output_log := []; stdout := [] |}.

(** ** Notions used by the further properties *)

(** A text that [strip] leaves alone: it neither starts nor ends with a
    space. *)
Definition stripped (s : string) : Prop :=
  Str.strip s = s
  /\ (forall c t, s = String c t -> Str.is_space c = false)
  /\ (forall c t, s = t +:+ String c "" -> Str.is_space c = false).

(** [results[k]] is a stripped text. *)
Definition holds_stripped (k : string) (d : dict) : Prop :=
  exists s, d !! k = Some (VStr s) /\ stripped s.

(** Every character of [s] satisfies [f]. *)
Fixpoint all_chars (f : ascii -> bool) (s : string) : bool :=
  match s with
  | EmptyString => true
  | String c s' => f c && all_chars f s'
  end.

(** The path [prefix slug /] stands somewhere in [s]. *)
Definition path_in (prefix slug s : string) : Prop :=
  exists pre post, s = pre +:+ prefix +:+ slug +:+ "/" +:+ post.

(** The technology flags and the texts that trigger them (lines 84-89). *)
Definition triggers : list (string * string) :=
  [ ("woocommerce", "has_woocommerce");
    ("shopify", "has_shopify");
    ("elementor", "has_elementor");
    ("beaver-builder", "has_beaver_builder");
    ("googletagmanager", "has_analytics");
    ("google-analytics", "has_analytics");
    ("facebook-pixel", "has_pixel");
    ("fbevents.js", "has_pixel") ].

(** In [s], a [copyright] keyword or the glyph is followed, before any
    line feed, by a year [20dd]. *)
Definition keyword_then_year (s : string) : Prop :=
  exists pre kw mid post d1 d2,
    s = pre +:+ kw +:+ mid
          +:+ String "2" (String "0" (String d1 (String d2 ""))) +:+ post
    /\ (kw = "copyright" \/ kw = String Re.glyph "")
    /\ Str.is_digit d1 = true /\ Str.is_digit d2 = true
    /\ Str.contains (String Re.newline "") mid = false.

(** The rows the writer makes of a batch. *)
Definition rows_of (batch_results : list dict) : list (list value) :=
  writerow <$> batch_results.

(** The pattern [(?:copyright|©).*?(20\d{2})] matches at the head of
    [t] with group [y]: a keyword or the glyph, then [y = 20dd] reached
    with no line feed and with no other [20dd] starting before it. *)
Definition match_at (t y : string) : Prop :=
  exists kw mid post d1 d2,
    t = kw +:+ mid +:+ y +:+ post
    /\ (kw = "copyright" \/ kw = String Re.glyph "")
    /\ y = String "2" (String "0" (String d1 (String d2 "")))
    /\ Str.is_digit d1 = true /\ Str.is_digit d2 = true
    /\ Str.contains (String Re.newline "") mid = false
    /\ forall m1 m2, mid = m1 +:+ m2 -> m2 <> "" ->
                     Re.year_at (m2 +:+ y +:+ post) = None.

(** At the head of [t] stands a keyword or the glyph that is followed on
    its line by some year [20dd]. *)
Definition starts_match (t : string) : Prop :=
  exists kw mid post d1 d2,
    t = kw +:+ mid
          +:+ String "2" (String "0" (String d1 (String d2 ""))) +:+ post
    /\ (kw = "copyright" \/ kw = String Re.glyph "")
    /\ Str.is_digit d1 = true /\ Str.is_digit d2 = true
    /\ Str.contains (String Re.newline "") mid = false.

(** [y] is the first year after a keyword in [s]: the first keyword or
    glyph of [s] that is followed on its line by a year, and the first
    year [20dd] after it. *)
Definition first_year_after_keyword (s y : string) : Prop :=
  exists pre t,
    s = pre +:+ t
    /\ match_at t y
    /\ forall p1 p2, pre = p1 +:+ p2 -> p2 <> "" -> ~ starts_match (p2 +:+ t).

(** Two dictionaries that agree on every key but [k0]. *)
Definition same_but (k0 : string) (d1 d2 : dict) : Prop :=
  forall k, k <> k0 -> d1 !! k = d2 !! k.

(** A computation of the [try] block that does not read the dictionary:
    started from dictionaries that agree but on [k0], it has the same
    outcome and leaves dictionaries that agree but on [k0]. *)
Definition blind {A} (k0 : string) (m : Try.M A) : Prop :=
  forall d1 d2,
    same_but k0 d1 d2 ->
    (m d1).1 = (m d2).1 /\ same_but k0 (m d1).2 (m d2).2.

(** Two surroundings in which the network, the parser and the
    enumeration of sets answer alike; the clocks may differ. *)
Definition same_answers (env env' : Env) : Prop :=
  requests_get env = requests_get env'
  /\ BeautifulSoup env = BeautifulSoup env'
  /\ list_of_set env = list_of_set env'.

(** [titled], an hour later and slower. *)
Definition titled_later : Env :=
  {| time_start := 3600;
     time_end := 3609;
     requests_get := requests_get titled;
     BeautifulSoup := BeautifulSoup titled;
     list_of_set := list_of_set titled |}.

(** ** The embedding at work *)

Example lower_example :
  Str.lower "Copyright 1999 Example" = "copyright 1999 example".
Proof. reflexivity. Qed.

Example strip_example : Str.strip "  My  Site " = "My  Site".
Proof. reflexivity. Qed.

Example theme_example :
  Re.search_theme "<link href='/wp-content/themes/my-theme/style.css'>"
  = Some "my-theme".
Proof. reflexivity. Qed.

(** A slug must be closed by a slash; the scan resumes after a match. *)
Example plugins_example :
  Re.findall_plugins
    "/wp-content/plugins/a/x /wp-content/plugins/b?v=1 /wp-content/plugins/a/y"
  = ["a"; "a"].
Proof. reflexivity. Qed.

(** The lazy span stops at a line feed. *)
Example copyright_example :
  Re.search_copyright "copyright 2019-2024" = Some "2019"
  /\ Re.search_copyright ("copyright" +:+ String Re.newline "2024") = None.
Proof. split; reflexivity. Qed.

(** 1.234 rounds to 1.23; the tie 0.135 goes to the even 0.14. *)
Example round_example :
  py_round (1234 # 1000) 2 = 123 # 100 /\ py_round (135 # 1000) 2 = 7 # 50.
Proof. split; reflexivity. Qed.

Example fetch_url_example :
  fetch_url "example.com" = "https://example.com"
  /\ fetch_url "http://example.com" = "http://example.com".
Proof. split; reflexivity. Qed.

(** ** Reasoning about the [try] block *)

Lemma preserves_ret {A} P (a : A) : preserves P (Try.ret a).
Proof. intros d H. exact H. Qed.

Lemma preserves_call {A} P (o : outcome A) : preserves P (Try.call o).
Proof. intros d H. exact H. Qed.

Lemma preserves_set P k v :
  (forall d, P d -> P (<[k := v]> d)) -> preserves P (Try.set_item k v).
Proof. intros H d Hd. apply H, Hd. Qed.

Lemma preserves_bind {A B} P (m : Try.M A) (f : A -> Try.M B) :
  preserves P m -> (forall a, preserves P (f a)) -> preserves P (m ≫= f).
Proof.
  intros Hm Hf d Hd. specialize (Hm d Hd).
  unfold mbind, try_bind, Try.bind. destruct (m d) as [[e|a] d']; simpl in *.
  - exact Hm.
  - apply Hf, Hm.
Qed.

Lemma preserves_when P b (m : Try.M unit) :
  preserves P m -> preserves P (Try.when b m).
Proof. intros Hm. destruct b; simpl; [exact Hm | apply preserves_ret]. Qed.

Lemma safe_ret {A} (a : A) : safe (Try.ret a).
Proof. intros d. by exists a. Qed.

Lemma safe_set k v : safe (Try.set_item k v).
Proof. intros d. by exists tt. Qed.

Lemma safe_bind {A B} (m : Try.M A) (f : A -> Try.M B) :
  safe m -> (forall a, safe (f a)) -> safe (m ≫= f).
Proof.
  intros Hm Hf d. destruct (Hm d) as [a Ha].
  unfold mbind, try_bind, Try.bind.
  destruct (m d) as [[e|a'] d']; simpl in *; [discriminate|]. apply Hf.
Qed.

Lemma safe_when b (m : Try.M unit) : safe m -> safe (Try.when b m).
Proof. intros Hm. destruct b; simpl; [exact Hm | apply safe_ret]. Qed.

Lemma assigns_set k v : assigns k v (Try.set_item k v).
Proof. intros d a _. apply lookup_insert_eq. Qed.

(** The assignment is in the first step and the rest keeps it. *)
Lemma assigns_bind_l {A B} k v (m : Try.M A) (f : A -> Try.M B) :
  assigns k v m ->
  (forall a, preserves (fun d => d !! k = Some v) (f a)) ->
  assigns k v (m ≫= f).
Proof.
  intros Hm Hf d b. specialize (Hm d). specialize (fun a => Hf a (m d).2).
  unfold mbind, try_bind, Try.bind.
  destruct (m d) as [[e|a] d']; simpl in *; [discriminate|].
  intros _. apply Hf. by apply (Hm a).
Qed.

(** The assignment is in the rest. *)
Lemma assigns_bind_r {A B} k v (m : Try.M A) (f : A -> Try.M B) :
  (forall a, assigns k v (f a)) -> assigns k v (m ≫= f).
Proof.
  intros Hf d b. unfold mbind, try_bind, Try.bind.
  destruct (m d) as [[e|a] d']; simpl; [discriminate|]. apply Hf.
Qed.

(** The invariant used below: a key keeps its value. *)
Lemma insert_keeps_lookup (k k' : string) (v : value) (o : option value) (d : dict) :
  k' ≠ k -> d !! k = o -> <[k' := v]> d !! k = o.
Proof. intros Hne <-. by apply lookup_insert_ne. Qed.

Lemma preserves_when_false P (m : Try.M unit) : preserves P (Try.when false m).
Proof. apply preserves_ret. Qed.

Ltac preserves_step :=
  first
    [ progress cbv beta iota
    | apply preserves_bind; [|intros ?]
    | apply preserves_when_false
    | apply preserves_when
    | apply preserves_ret
    | apply preserves_call
    | apply preserves_set; intros ? ?; apply insert_keeps_lookup; [done | assumption]
    | match goal with
      | |- preserves _ (match ?x with _ => _ end) => destruct x
      end ].

Ltac solve_preserves := repeat preserves_step.

Ltac safe_step :=
  first
    [ apply safe_bind; [|intros ?]
    | apply safe_when
    | apply safe_ret
    | apply safe_set
    | match goal with
      | |- safe (match ?x with _ => _ end) => destruct x
      end ].

Ltac solve_safe := repeat safe_step.

Ltac solve_assigns :=
  repeat first
    [ apply assigns_set
    | apply assigns_bind_l; [apply assigns_set | intros ?; solve_preserves]
    | apply assigns_bind_r; intros ? ].

(** *** The inspection of a parsed document *)

Lemma inspect_parsed_safe env response soup : safe (inspect_parsed env response soup).
Proof. unfold inspect_parsed. solve_safe. Qed.

Lemma inspect_raised env response e d :
  BeautifulSoup env (text response) = Raised e ->
  inspect env response d = (Raised e, d).
Proof.
  intros H. unfold inspect, mbind, try_bind, Try.bind, Try.call. by rewrite H.
Qed.

Lemma inspect_returned env response soup d :
  BeautifulSoup env (text response) = Returned soup ->
  inspect env response d = inspect_parsed env response soup d.
Proof.
  intros H. unfold inspect, mbind, try_bind, Try.bind, Try.call. by rewrite H.
Qed.

(** [inspect] assigns none of the four fields set before it. *)
Lemma inspect_keeps env response k o :
  k ∈ ["url"; "status"; "load_time_seconds"; "is_https"] ->
  preserves (fun d => d !! k = o) (inspect env response).
Proof.
  intros Hk. unfold inspect, inspect_parsed.
  repeat (apply elem_of_cons in Hk as [->|Hk]); [..|by apply elem_of_nil in Hk];
    solve_preserves.
Qed.

(** *** [check_website], outcome by outcome *)

Lemma bind_set_item {B} k v (f : unit -> Try.M B) d :
  (Try.set_item k v ≫= f) d = f tt (<[k := v]> d).
Proof. reflexivity. Qed.

Lemma bind_call_raised {A B} e (f : A -> Try.M B) d :
  (Try.call (Raised e) ≫= f) d = (Raised e, d).
Proof. reflexivity. Qed.

Lemma bind_call_returned {A B} a (f : A -> Try.M B) d :
  (Try.call (Returned a) ≫= f) d = f a d.
Proof. reflexivity. Qed.

Lemma check_website_unfold env url :
  check_website env url =
  match requests_get env (fetch_url url) with
  | Raised e => handler e (started url)
  | Returned response =>
      if status_code response =? 200 then
        match inspect env response (responded env url response) with
        | (Returned _, d) => d
        | (Raised e, d) => handler e d
        end
      else responded env url response
  end.
Proof.
  unfold check_website, try_block. rewrite bind_set_item.
  fold (started url).
  destruct (requests_get env (fetch_url url)) as [e|response].
  - by rewrite bind_call_raised.
  - rewrite bind_call_returned, !bind_set_item.
    fold (elapsed env). fold (responded env url response).
    unfold Try.when. destruct (status_code response =? 200); [|reflexivity].
    by destruct (inspect env response _) as [[e|[]] d].
Qed.

Lemma handler_other e (d : dict) k :
  k ≠ "status" -> d !! "plugin_names" = Some (VStr "") ->
  handler e d !! k = d !! k.
Proof.
  intros Hk Hd. unfold handler.
  destruct (decide (k = "plugin_names")) as [->|Hne].
  - by rewrite lookup_insert_eq.
  - by rewrite !lookup_insert_ne.
Qed.

Lemma handler_other_count e (d : dict) :
  handler e d !! "plugin_count" = d !! "plugin_count".
Proof. unfold handler. by rewrite !lookup_insert_ne. Qed.

Ltac lookup_field :=
  unfold handler, responded, started, initial_results;
  repeat first [rewrite lookup_insert_eq | rewrite lookup_insert_ne by done];
  try reflexivity.

Lemma check_website_raised_fetch env url e :
  requests_get env (fetch_url url) = Raised e ->
  check_website env url = handler e (started url).
Proof. intros H. by rewrite check_website_unfold, H. Qed.

Lemma check_website_raised_parse env url response e :
  requests_get env (fetch_url url) = Returned response ->
  status_code response = 200 ->
  BeautifulSoup env (text response) = Raised e ->
  check_website env url = handler e (responded env url response).
Proof.
  intros H Hc Hp. rewrite check_website_unfold, H, Hc. simpl.
  by rewrite (inspect_raised _ _ e).
Qed.

Lemma check_website_not_200 env url response :
  requests_get env (fetch_url url) = Returned response ->
  status_code response ≠ 200 ->
  check_website env url = responded env url response.
Proof.
  intros H Hc. rewrite check_website_unfold, H.
  by destruct (Z.eqb_spec (status_code response) 200).
Qed.

Lemma check_website_200 env url response soup :
  requests_get env (fetch_url url) = Returned response ->
  status_code response = 200 ->
  BeautifulSoup env (text response) = Returned soup ->
  check_website env url
  = (inspect_parsed env response soup (responded env url response)).2
  /\ (inspect_parsed env response soup (responded env url response)).1 = Returned tt.
Proof.
  intros H Hc Hp. rewrite check_website_unfold, H, Hc. simpl.
  rewrite (inspect_returned _ _ soup) by done.
  destruct (inspect_parsed_safe env response soup (responded env url response))
    as [[] Hr].
  by destruct (inspect_parsed _ _ _ _) as [[e|[]] d]; simplify_eq/=.
Qed.

Lemma raised_cases env url st e :
  raised env url = Some (st, e) ->
  (st = Fetch /\ requests_get env (fetch_url url) = Raised e)
  \/ (st = Parse /\ exists response,
        requests_get env (fetch_url url) = Returned response
        /\ status_code response = 200
        /\ BeautifulSoup env (text response) = Raised e).
Proof.
  unfold raised. destruct (requests_get env (fetch_url url)) as [e'|response].
  - intros [= <- <-]. by left.
  - destruct (Z.eqb_spec (status_code response) 200) as [Hc|]; [|done].
    destruct (BeautifulSoup env (text response)) as [e'|soup] eqn:Hp; [|done].
    intros [= <- <-]. right. split; [done|]. by exists response.
Qed.

(** A field that neither the inspection nor the handler assigns holds
    what it held when [requests.get] raised or returned. *)
Lemma early_field env url k :
  k ∈ ["url"; "load_time_seconds"; "is_https"] ->
  check_website env url !! k
  = match requests_get env (fetch_url url) with
    | Raised _ => started url !! k
    | Returned response => responded env url response !! k
    end.
Proof.
  intros Hk.
  assert (Hne : k ≠ "status" /\ k ≠ "plugin_names")
    by (repeat (apply elem_of_cons in Hk as [->|Hk]); [..|by apply elem_of_nil in Hk]; done).
  destruct Hne as [Hs Hp].
  rewrite check_website_unfold.
  destruct (requests_get env (fetch_url url)) as [e|response].
  - unfold handler. by rewrite !lookup_insert_ne.
  - destruct (status_code response =? 200); [|done].
    assert (Hin : k ∈ ["url"; "status"; "load_time_seconds"; "is_https"])
      by (repeat (apply elem_of_cons in Hk as [->|Hk]); [..|by apply elem_of_nil in Hk];
          set_solver).
    pose proof (inspect_keeps env response k _ Hin (responded env url response) eq_refl)
      as Hkeep.
    destruct (inspect env response (responded env url response)) as [[e|[]] d];
      simpl in Hkeep; [|done].
    unfold handler. by rewrite !lookup_insert_ne.
Qed.

Lemma is_https_field env url :
  check_website env url !! "is_https"
  = Some (VBool (Str.startswith "https" (fetch_url url))).
Proof.
  rewrite early_field by set_solver.
  destruct (requests_get env (fetch_url url)); lookup_field.
Qed.

(** The code's own test: a URL that does not start with the four
    characters [http] is fetched with [https://] in front, and its record
    has [is_https] true. *)
Lemma fetch_url_prefixed env url :
  Str.startswith "http" url = false ->
  fetch_url url = "https://" +:+ url
  /\ Str.startswith "https://" (fetch_url url) = true
  /\ check_website env url !! "is_https" = Some (VBool true).
Proof.
  intros H. rewrite is_https_field. unfold fetch_url. rewrite H. done.
Qed.

(** ** The Inspector's claims *)

(** C1 (as amended).  When an exception [e] is raised during the fetch or
    the parse, the record's [status] is ["Error: "] followed by the message
    of [e], so it begins with ["Error:"]; [plugin_names] is the empty
    string; [is_https] tells whether the fetched URL starts with [https];
    [load_time_seconds] is 0 when the fetch raised and the rounded elapsed
    time when the parser raised; every other field ([url] holding the
    input as given) holds the value the record was created with. *)
Theorem C1_error_record env url st e :
  raised env url = Some (st, e) ->
  let r := check_website env url in
  r !! "status" = Some (VStr ("Error: " +:+ e))
  /\ Str.startswith "Error:" ("Error: " +:+ e) = true
  /\ r !! "plugin_names" = Some (VStr "")
  /\ r !! "is_https" = Some (VBool (Str.startswith "https" (fetch_url url)))
  /\ r !! "load_time_seconds"
     = Some (match st with Fetch => VInt 0 | Parse => elapsed env end)
  /\ forall k, k ∉ ["status"; "is_https"; "load_time_seconds"] ->
               r !! k = initial_results url !! k.
Proof.
  intros Hr r. subst r.
  destruct (raised_cases _ _ _ _ Hr) as [[-> Hf]|[-> (response & Hf & Hc & Hp)]].
  - rewrite (check_website_raised_fetch _ _ e Hf).
    split_and!; [lookup_field..|].
    intros k Hk. rewrite handler_other; [|set_solver|lookup_field].
    unfold started. rewrite lookup_insert_ne; [reflexivity|set_solver].
  - rewrite (check_website_raised_parse _ _ response e Hf Hc Hp).
    split_and!; [lookup_field..|].
    intros k Hk. rewrite handler_other; [|set_solver|lookup_field].
    unfold responded, started. rewrite !lookup_insert_ne; [reflexivity|set_solver..].
Qed.

Lemma C1_error_record_witness :
  raised (unreachable read_timeout) "https://example.com" = Some (Fetch, read_timeout)
  /\ check_website (unreachable read_timeout) "https://example.com" !! "status"
     = Some (VStr ("Error: " +:+ read_timeout)).
Proof.
  split; [reflexivity|].
  apply (C1_error_record (unreachable read_timeout) "https://example.com"
           Fetch read_timeout).
  reflexivity.
Defined.

(** C1 as stated fails: [requests.get] times out on an [https] URL, and
    the error record has [is_https] true, not the default false. *)
Lemma C1_counterexample :
  raised (unreachable read_timeout) "https://example.com" = Some (Fetch, read_timeout)
  /\ check_website (unreachable read_timeout) "https://example.com" !! "is_https"
     = Some (VBool true)
  /\ initial_results "https://example.com" !! "is_https" = Some (VBool false).
Proof. vm_compute. done. Qed.

(** C2 at the input ["httpbin.org"], which has no scheme: the URL is
    fetched as it is, without [https://], and [is_https] is false. *)
Theorem C2_scheme_less_host env :
  Str.startswith "http://" "httpbin.org" = false
  /\ Str.startswith "https://" "httpbin.org" = false
  /\ fetch_url "httpbin.org" = "httpbin.org"
  /\ Str.startswith "https://" (fetch_url "httpbin.org") = false
  /\ check_website env "httpbin.org" !! "is_https" = Some (VBool false).
Proof. rewrite is_https_field. done. Qed.

(** C3 (as amended).  The [url] field of the record is the input exactly
    as given, whether or not [https://] was put in front for the fetch. *)
Theorem C3_url_field env url :
  check_website env url !! "url" = Some (VStr url).
Proof.
  rewrite early_field by set_solver.
  destruct (requests_get env (fetch_url url)); lookup_field.
Qed.

(** C3 as stated fails: ["example.com"] has no scheme and is fetched as
    ["https://example.com"], yet the record's [url] is ["example.com"]. *)
Lemma C3_counterexample :
  fetch_url "example.com" = "https://example.com"
  /\ check_website (serving 200 "<html></html>" no_tags) "example.com" !! "url"
     = Some (VStr "example.com").
Proof. vm_compute. done. Qed.

(** C4 (as amended).  [load_time_seconds] is the elapsed time rounded to
    two decimals whenever [requests.get] returns a response, whatever its
    status and whatever happens afterwards; it is 0 whenever
    [requests.get] raises. *)
Theorem C4_load_time env url :
  check_website env url !! "load_time_seconds"
  = Some (match requests_get env (fetch_url url) with
          | Raised _ => VInt 0
          | Returned _ => VFloat (py_round (time_end env - time_start env) 2)
          end).
Proof.
  rewrite early_field by set_solver.
  destruct (requests_get env (fetch_url url)); lookup_field.
Qed.

(** C4 as stated fails: the request is issued and times out 10.01 s
    later; [load_time_seconds] is 0, not 10.01. *)
Lemma C4_counterexample :
  requests_get (unreachable read_timeout) (fetch_url "https://example.com")
  = Raised read_timeout
  /\ py_round (time_end (unreachable read_timeout)
               - time_start (unreachable read_timeout)) 2 = 1001 # 100
  /\ check_website (unreachable read_timeout) "https://example.com"
       !! "load_time_seconds" = Some (VInt 0).
Proof. vm_compute. done. Qed.

(** *** The plugin fields *)

Lemma inspect_parsed_plugin_count env response soup :
  assigns "plugin_count"
    (VInt (Z.of_nat (length (list_of_set env
       (list_to_set (Re.findall_plugins (Str.lower (text response))))))))
    (inspect_parsed env response soup).
Proof. unfold inspect_parsed. solve_assigns. Qed.

Lemma inspect_parsed_plugin_names env response soup :
  assigns "plugin_names"
    (VStr (Str.join ", " (list_of_set env
       (list_to_set (Re.findall_plugins (Str.lower (text response)))))))
    (inspect_parsed env response soup).
Proof. unfold inspect_parsed. solve_assigns. Qed.

Lemma inspected_cases env url :
  match inspected env url with
  | Some response =>
      exists soup,
        requests_get env (fetch_url url) = Returned response
        /\ status_code response = 200
        /\ BeautifulSoup env (text response) = Returned soup
  | None =>
      (exists e d, check_website env url = handler e d
                   /\ d !! "plugin_count" = Some (VInt 0))
      \/ (exists response, check_website env url = responded env url response)
  end.
Proof.
  unfold inspected.
  destruct (requests_get env (fetch_url url)) as [e|response] eqn:Hf.
  - left. exists e, (started url). split; [by apply check_website_raised_fetch|].
    lookup_field.
  - destruct (Z.eqb_spec (status_code response) 200) as [Hc|Hc].
    + destruct (BeautifulSoup env (text response)) as [e|soup] eqn:Hp.
      * left. exists e, (responded env url response).
        split; [by apply check_website_raised_parse|]. lookup_field.
      * by exists soup.
    + right. exists response. by apply check_website_not_200.
Qed.

(** C6 (as amended).  In every record, [plugin_count] is the cardinality
    of the record's deduplicated slug set and [plugin_names] joins exactly
    the members of that set, each once, in some order; the set holds the
    slugs matched by the plugin path pattern in the lower-cased body when
    the response has status 200 and is parsed, and is empty for every
    other record. *)
Theorem C6_plugin_count env url :
  set_order_ok env ->
  check_website env url !! "plugin_count"
  = Some (VInt (Z.of_nat (size (plugin_set env url))))
  /\ exists names,
       names ≡ₚ elements (plugin_set env url)
       /\ check_website env url !! "plugin_names" = Some (VStr (Str.join ", " names)).
Proof.
  intros Hord. pose proof (inspected_cases env url) as H. unfold plugin_set.
  destruct (inspected env url) as [response|].
  - destruct H as (soup & Hf & Hc & Hp).
    destruct (check_website_200 _ _ _ _ Hf Hc Hp) as [-> Hret].
    set (X := list_to_set _ : gset string).
    split.
    + rewrite (inspect_parsed_plugin_count _ _ _ _ _ Hret).
      fold X. unfold size, set_size. simpl. by rewrite (Hord X).
    + exists (list_of_set env X). split; [apply Hord|].
      apply (inspect_parsed_plugin_names _ _ _ _ _ Hret).
  - rewrite size_empty, elements_empty.
    destruct H as [(e & d & -> & Hd)|(response & ->)].
    + split; [by rewrite handler_other_count|].
      exists []. split; [done|]. unfold handler. by rewrite lookup_insert_eq.
    + split; [lookup_field|]. exists []. split; [done|]. lookup_field.
Qed.

Lemma C6_plugin_count_witness :
  set_order_ok (serving 200
    "<script src='/wp-content/plugins/akismet/a.js'></script><link href='/wp-content/plugins/akismet/a.css'><img src='/wp-content/plugins/jetpack/i.png'>"
    no_tags)
  /\ check_website (serving 200
    "<script src='/wp-content/plugins/akismet/a.js'></script><link href='/wp-content/plugins/akismet/a.css'><img src='/wp-content/plugins/jetpack/i.png'>"
    no_tags) "example.com" !! "plugin_count" = Some (VInt 2).
Proof.
  assert (Hord : forall c b t, set_order_ok (serving c b t)) by (intros c b t X; reflexivity).
  split; [apply Hord|].
  exact (proj1 (C6_plugin_count _ "example.com" (Hord _ _ _))).
Defined.

(** C6 as stated fails twice.  A 404 response whose body names a plugin
    path: the pattern matches one slug in the body, the record counts
    none.  A 200 response with the slugs [Foo] and [foo]: the pattern
    matches two distinct slugs in the body, the record counts one, since
    the search runs on the lower-cased body. *)
Lemma C6_counterexample :
  (size (list_to_set (Re.findall_plugins "see /wp-content/plugins/akismet/readme")
          : gset string) = 1%nat
   /\ check_website (serving 404 "see /wp-content/plugins/akismet/readme" no_tags)
        "example.com" !! "plugin_count" = Some (VInt 0))
  /\ (size (list_to_set
              (Re.findall_plugins "/wp-content/plugins/Foo/a /wp-content/plugins/foo/b")
            : gset string) = 2%nat
      /\ check_website
           (serving 200 "/wp-content/plugins/Foo/a /wp-content/plugins/foo/b" no_tags)
           "example.com" !! "plugin_count" = Some (VInt 1)).
Proof. vm_compute. done. Qed.

(** *** Pages without WordPress markers *)

Lemma append_cons a (p r : string) : String a p +:+ r = String a (p +:+ r).
Proof. reflexivity. Qed.

Lemma startswith_spec p t :
  Str.startswith p t = true <-> exists r, t = p +:+ r.
Proof.
  revert t. induction p as [|a p IH]; intros t; simpl.
  - split; [intros _; by exists t | done].
  - destruct t as [|b t].
    + split; [done | intros [r Hr]; by rewrite append_cons in Hr].
    + destruct (ascii_dec a b) as [<-|Hne].
      * rewrite IH. split; intros [r Hr]; exists r.
        -- by rewrite append_cons, Hr.
        -- rewrite append_cons in Hr. by simplify_eq.
      * split; [done | intros [r Hr]]. rewrite append_cons in Hr. by simplify_eq.
Qed.

Lemma append_assoc (p q r : string) : (p +:+ q) +:+ r = p +:+ (q +:+ r).
Proof. induction p as [|a p IH]; [done|]. by rewrite !append_cons, IH. Qed.

Lemma startswith_longer p q t :
  Str.startswith (p +:+ q) t = true -> Str.startswith p t = true.
Proof.
  rewrite !startswith_spec. intros [r ->]. exists (q +:+ r). apply append_assoc.
Qed.

Lemma slug_at_startswith prefix cls t :
  Str.startswith prefix t = false -> Re.slug_at prefix cls t = None.
Proof. intros H. unfold Re.slug_at. by rewrite H. Qed.

Lemma search_slug_none p q cls s :
  Str.contains p s = false -> Re.search_slug (p +:+ q) cls s = None.
Proof.
  induction s as [|a s IH]; simpl; intros [Hs Hc]%orb_false_elim.
  - rewrite slug_at_startswith; [done|].
    destruct (Str.startswith (p +:+ q) "") eqn:E; [|done].
    apply startswith_longer in E. congruence.
  - rewrite slug_at_startswith; [by apply IH|].
    destruct (Str.startswith (p +:+ q) (String a s)) eqn:E; [|done].
    apply startswith_longer in E. congruence.
Qed.

Lemma findall_slug_none p q cls s skip :
  Str.contains p s = false -> Re.findall_slug_from skip (p +:+ q) cls s = [].
Proof.
  revert skip. induction s as [|a s IH]; intros skip; simpl; [done|].
  intros [Hs Hc]%orb_false_elim. destruct skip as [|k]; [|by apply IH].
  rewrite slug_at_startswith; [by apply IH|].
  destruct (Str.startswith (p +:+ q) (String a s)) eqn:E; [|done].
  apply startswith_longer in E. congruence.
Qed.

Lemma no_marker_no_theme s :
  Str.contains "wp-content" s = false -> Re.search_theme s = None.
Proof. apply (search_slug_none "wp-content" "/themes/"). Qed.

Lemma no_marker_no_plugins s :
  Str.contains "wp-content" s = false -> Re.findall_plugins s = [].
Proof. apply (findall_slug_none "wp-content" "/plugins/"). Qed.

Lemma find_generator_none soup :
  ~ has_generator_meta soup -> find_generator soup = None.
Proof.
  unfold has_generator_meta, find_generator. induction (metas soup) as [|tag l IH].
  - done.
  - intros H. simpl.
    destruct (bool_decide _ && _) eqn:E.
    + exfalso. apply andb_prop in E as [Hn%bool_decide_eq_true Hm].
      destruct (tag !! "content") as [c|] eqn:Hc; [|done].
      apply H. exists tag, c. split; [apply elem_of_cons; by left | done].
    + apply IH. intros (tag' & c & Hin & Hrest). apply H.
      exists tag', c. split; [apply elem_of_cons; by right | done].
Qed.

Lemma list_of_set_empty env : set_order_ok env -> list_of_set env ∅ = [].
Proof.
  intros H. apply Permutation_nil. symmetry. by rewrite (H ∅), elements_empty.
Qed.

(** C8 (as amended).  For a 200 response whose lower-cased body does not
    contain [wp-content], and whose document has no generator [meta] tag
    matching [WordPress], the record has [is_wordpress] false, an empty
    [theme], [plugin_count] 0 and empty [plugin_names]. *)
Theorem C8_not_wordpress env url response :
  set_order_ok env ->
  requests_get env (fetch_url url) = Returned response ->
  status_code response = 200 ->
  Str.contains "wp-content" (Str.lower (text response)) = false ->
  (forall soup, BeautifulSoup env (text response) = Returned soup ->
                ~ has_generator_meta soup) ->
  let r := check_website env url in
  r !! "is_wordpress" = Some (VBool false)
  /\ r !! "theme" = Some (VStr "")
  /\ r !! "plugin_count" = Some (VInt 0)
  /\ r !! "plugin_names" = Some (VStr "").
Proof.
  intros Hord Hf Hc Hwp Hgen r. subst r.
  destruct (BeautifulSoup env (text response)) as [e|soup] eqn:Hp.
  - rewrite (check_website_raised_parse _ _ _ _ Hf Hc Hp).
    split_and!; lookup_field.
  - destruct (check_website_200 _ _ _ _ Hf Hc Hp) as [-> Hret].
    specialize (Hgen soup eq_refl). apply find_generator_none in Hgen.
    split_and!.
    + assert (preserves (fun d => d !! "is_wordpress" = Some (VBool false))
                (inspect_parsed env response soup)) as Hk.
      { unfold inspect_parsed. rewrite Hwp, Hgen. solve_preserves. }
      apply Hk. lookup_field.
    + assert (preserves (fun d => d !! "theme" = Some (VStr ""))
                (inspect_parsed env response soup)) as Hk.
      { unfold inspect_parsed. rewrite (no_marker_no_theme _ Hwp). solve_preserves. }
      apply Hk. lookup_field.
    + rewrite (inspect_parsed_plugin_count _ _ _ _ _ Hret).
      rewrite (no_marker_no_plugins _ Hwp). simpl.
      by rewrite list_of_set_empty.
    + rewrite (inspect_parsed_plugin_names _ _ _ _ _ Hret).
      rewrite (no_marker_no_plugins _ Hwp). simpl.
      by rewrite list_of_set_empty.
Qed.

Lemma C8_not_wordpress_witness :
  let env := serving 200 "<html><head><title>Hi</title></head></html>"
               {| title := Some (Some "Hi"); metas := [] |} in
  Str.contains "wp-content" (Str.lower "<html><head><title>Hi</title></head></html>")
  = false
  /\ check_website env "example.com" !! "is_wordpress" = Some (VBool false)
  /\ check_website env "example.com" !! "theme" = Some (VStr "")
  /\ check_website env "example.com" !! "plugin_count" = Some (VInt 0)
  /\ check_website env "example.com" !! "plugin_names" = Some (VStr "").
Proof.
  intros env. split; [reflexivity|].
  apply (C8_not_wordpress env "example.com"
           {| status_code := 200;
              text := "<html><head><title>Hi</title></head></html>" |}).
  - intros X. reflexivity.
  - reflexivity.
  - reflexivity.
  - reflexivity.
  - intros soup [= <-] (tag & c & Hin & _). simpl in Hin.
    by apply elem_of_nil in Hin.
Defined.

(** C8 as stated fails: the body has no substring [wp-content], only
    [WP-CONTENT], and no generator tag; the search runs on the lower-cased
    body, so the record has [is_wordpress] true and one plugin. *)
Lemma C8_counterexample :
  let body := "<link href='/WP-CONTENT/PLUGINS/FOO/x.css'>" in
  let r := check_website (serving 200 body no_tags) "example.com" in
  Str.contains "wp-content" body = false
  /\ metas no_tags = []
  /\ r !! "is_wordpress" = Some (VBool true)
  /\ r !! "plugin_count" = Some (VInt 1)
  /\ r !! "plugin_names" = Some (VStr "foo").
Proof. vm_compute. done. Qed.

(** *** The copyright year *)

Lemma lower_app p q : Str.lower (p +:+ q) = Str.lower p +:+ Str.lower q.
Proof. induction p as [|a p IH]; [done|]. rewrite append_cons. simpl. by rewrite IH. Qed.

(** A pattern without the character [g] matches at the head of
    [t +:+ String g r] only when it matches at the head of [t]. *)
Lemma startswith_before g p t r :
  Str.contains (String g "") p = false ->
  p <> "" ->
  Str.startswith p (t +:+ String g r) = Str.startswith p t.
Proof.
  revert t. induction p as [|a p IH]; intros t Hg Hp; [done|].
  simpl in Hg. apply orb_false_elim in Hg as [Ha Hg].
  destruct t as [|b t].
  - simpl. destruct (ascii_dec a g) as [->|]; [|done].
    simpl in Ha. by destruct (ascii_dec g g).
  - rewrite append_cons. simpl. destruct (ascii_dec a b); [|done].
    destruct p as [|a' p]; [done|]. by apply IH.
Qed.

Lemma keyword_at_before t r :
  t <> "" ->
  Str.startswith "copyright" t = false ->
  Str.startswith (String Re.glyph "") t = false ->
  Re.keyword_at (t +:+ String Re.glyph r) = None.
Proof.
  intros Ht Hk Hg. unfold Re.keyword_at.
  rewrite startswith_before by done. rewrite Hk.
  destruct t as [|a t]; [done|]. rewrite append_cons.
  simpl in Hg. destruct (ascii_dec Re.glyph a) as [<-|Hne]; [done|].
  by destruct (ascii_dec a Re.glyph) as [->|].
Qed.

(** The search passes a prefix that holds no keyword and no glyph. *)
Lemma search_copyright_skip pre r :
  Str.contains "copyright" pre = false ->
  Str.contains (String Re.glyph "") pre = false ->
  Re.search_copyright (pre +:+ String Re.glyph r)
  = Re.search_copyright (String Re.glyph r).
Proof.
  induction pre as [|a pre IH]; [done|].
  intros Hk Hg. simpl in Hk, Hg.
  apply orb_false_elim in Hk as [Hk Hk'], Hg as [Hg Hg'].
  rewrite append_cons.
  change (Re.search_copyright (String a (pre +:+ String Re.glyph r)))
    with (match Re.copyright_at (String a (pre +:+ String Re.glyph r)) with
          | Some y => Some y
          | None => Re.search_copyright (pre +:+ String Re.glyph r)
          end).
  unfold Re.copyright_at. rewrite <- append_cons.
  rewrite keyword_at_before; [by apply IH|done|..].
  - simpl. exact Hk.
  - simpl. exact Hg.
Qed.

Lemma search_glyph_2021 pre post :
  Str.contains "copyright" (Str.lower pre) = false ->
  Str.contains (String Re.glyph "") (Str.lower pre) = false ->
  Re.search_copyright (Str.lower (pre +:+ glyph_2021 +:+ post)) = Some "2021".
Proof.
  intros Hk Hg. rewrite lower_app.
  change (Str.lower (glyph_2021 +:+ post))
    with (String Re.glyph (" 2021 example corp" +:+ Str.lower post)).
  by rewrite search_copyright_skip.
Qed.

Lemma contains_year_cons a s :
  Re.contains_year (String a s)
  = match Re.year_at (String a s) with
    | Some _ => true
    | None => Re.contains_year s
    end.
Proof. reflexivity. Qed.

Lemma lazy_year_cons a s :
  Re.lazy_year (String a s)
  = match Re.year_at (String a s) with
    | Some y => Some y
    | None => if ascii_dec a Re.newline then None else Re.lazy_year s
    end.
Proof. reflexivity. Qed.

Lemma search_copyright_cons a s :
  Re.search_copyright (String a s)
  = match Re.copyright_at (String a s) with
    | Some y => Some y
    | None => Re.search_copyright s
    end.
Proof. reflexivity. Qed.

Lemma contains_year_tail a s :
  Re.contains_year (String a s) = false -> Re.contains_year s = false.
Proof. rewrite contains_year_cons. by destruct (Re.year_at (String a s)). Qed.

Lemma contains_year_drop n s :
  Re.contains_year s = false -> Re.contains_year (Str.drop n s) = false.
Proof.
  revert s. induction n as [|n IH]; intros s H; [done|].
  destruct s as [|a s]; [done|]. simpl. apply IH. by apply contains_year_tail in H.
Qed.

Lemma lazy_year_none s : Re.contains_year s = false -> Re.lazy_year s = None.
Proof.
  induction s as [|a s IH]; [done|].
  rewrite contains_year_cons, lazy_year_cons.
  destruct (Re.year_at (String a s)) eqn:E; [done|].
  intros H. destruct (ascii_dec a Re.newline); [done|by apply IH].
Qed.

Lemma copyright_at_none s : Re.contains_year s = false -> Re.copyright_at s = None.
Proof.
  intros H. unfold Re.copyright_at, Re.keyword_at.
  destruct (Str.startswith "copyright" s).
  - apply lazy_year_none. by apply (contains_year_drop 9).
  - destruct s as [|a s]; [done|]. destruct (ascii_dec a Re.glyph); [|done].
    apply lazy_year_none. by apply contains_year_tail in H.
Qed.

(** Without a [20dd] in the text there is no match. *)
Lemma search_copyright_none s :
  Re.contains_year s = false -> Re.search_copyright s = None.
Proof.
  induction s as [|a s IH]; intros H.
  - done.
  - rewrite search_copyright_cons.
    rewrite copyright_at_none by done. apply IH. by apply contains_year_tail in H.
Qed.

Lemma year_at_spec s y :
  Re.year_at s = Some y ->
  exists d1 d2 post,
    y = String "2" (String "0" (String d1 (String d2 "")))
    /\ Str.is_digit d1 = true /\ Str.is_digit d2 = true
    /\ s = y +:+ post.
Proof.
  unfold Re.year_at. intros H.
  repeat case_match; simplify_eq.
  match goal with
  | H : _ && _ = true |- _ => apply andb_prop in H as [H1 H2]
  end.
  by eexists _, _, _.
Qed.

Lemma lazy_year_spec s y :
  Re.lazy_year s = Some y ->
  exists mid post d1 d2,
    s = mid +:+ y +:+ post
    /\ y = String "2" (String "0" (String d1 (String d2 "")))
    /\ Str.is_digit d1 = true /\ Str.is_digit d2 = true
    /\ Str.contains (String Re.newline "") mid = false
    /\ forall m1 m2, mid = m1 +:+ m2 -> m2 <> "" ->
                     Re.year_at (m2 +:+ y +:+ post) = None.
Proof.
  induction s as [|a s IH].
  - discriminate.
  - rewrite lazy_year_cons.
    destruct (Re.year_at (String a s)) as [y'|] eqn:E.
    + intros [= ->]. destruct (year_at_spec _ _ E) as (d1 & d2 & post & Hy & H1 & H2 & Hs).
      exists "", post, d1, d2. split_and!; try done.
      intros m1 m2 Hm Hm2. destruct m1 as [|b m1].
      * change ("" +:+ m2) with m2 in Hm. congruence.
      * rewrite append_cons in Hm. discriminate.
    + destruct (ascii_dec a Re.newline) as [|Hnl]; [done|].
      intros (mid & post & d1 & d2 & Hs & Hy & H1 & H2 & Hn & Hfirst)%IH.
      exists (String a mid), post, d1, d2. split_and!; try done.
      * by rewrite append_cons, Hs.
      * change (Str.contains (String Re.newline "") (String a mid))
          with ((if ascii_dec Re.newline a then true else false)
                || Str.contains (String Re.newline "") mid).
        rewrite Hn. by destruct (ascii_dec Re.newline a) as [<-|].
      * intros [|b m1] m2 Hm Hm2.
        -- change ("" +:+ m2) with m2 in Hm. subst m2.
           by rewrite append_cons, <- Hs.
        -- rewrite append_cons in Hm. injection Hm as <- Hm. by apply Hfirst with m1.
Qed.

Lemma keyword_at_spec s rest :
  Re.keyword_at s = Some rest ->
  s = "copyright" +:+ rest \/ s = String Re.glyph "" +:+ rest.
Proof.
  unfold Re.keyword_at. destruct (Str.startswith "copyright" s) eqn:E.
  - intros [= <-]. left. apply startswith_spec in E as [r ->]. done.
  - destruct s as [|a s]; [done|]. destruct (ascii_dec a Re.glyph) as [->|]; [|done].
    intros [= <-]. by right.
Qed.

(** What the search returns is a year that follows a keyword. *)
Lemma search_copyright_spec s y :
  Re.search_copyright s = Some y -> year_follows_keyword s y.
Proof.
  induction s as [|a s IH].
  - discriminate.
  - rewrite search_copyright_cons.
    destruct (Re.copyright_at (String a s)) as [y'|] eqn:E.
    + intros [= ->]. unfold Re.copyright_at in E.
      destruct (Re.keyword_at (String a s)) as [rest|] eqn:Ek; [|done].
      apply lazy_year_spec in E as (mid & post & d1 & d2 & Hs & Hy & H1 & H2 & Hn & Hfirst).
      destruct (keyword_at_spec _ _ Ek) as [Hkw|Hkw].
      * exists "", "copyright", mid, post, d1, d2.
        split_and!; try done; [|by left]. by rewrite Hkw, Hs.
      * exists "", (String Re.glyph ""), mid, post, d1, d2.
        split_and!; try done; [|by right]. by rewrite Hkw, Hs.
    + intros (pre & kw & mid & post & d1 & d2 & Hs & Hrest)%IH.
      exists (String a pre), kw, mid, post, d1, d2. split; [|done].
      by rewrite append_cons, Hs.
Qed.

Lemma lazy_year_year_at s y : Re.year_at s = Some y -> Re.lazy_year s = Some y.
Proof.
  destruct s as [|c s]; [done|]. intros H. by rewrite lazy_year_cons, H.
Qed.

Lemma year_at_digits d1 d2 post :
  Str.is_digit d1 = true -> Str.is_digit d2 = true ->
  Re.year_at (String "2" (String "0" (String d1 (String d2 ""))) +:+ post)
  = Some (String "2" (String "0" (String d1 (String d2 "")))).
Proof.
  intros H1 H2.
  change (Re.year_at (String "2" (String "0" (String d1 (String d2 ""))) +:+ post))
    with (if Str.is_digit d1 && Str.is_digit d2
          then Some (String "2" (String "0" (String d1 (String d2 ""))))
          else None).
  by rewrite H1, H2.
Qed.

Lemma lazy_year_complete mid rest y :
  Str.contains (String Re.newline "") mid = false ->
  Re.year_at rest = Some y ->
  exists z, Re.lazy_year (mid +:+ rest) = Some z.
Proof.
  intros Hn Hy. induction mid as [|c mid IH].
  - exists y. by apply lazy_year_year_at.
  - rewrite append_cons, lazy_year_cons.
    destruct (Re.year_at (String c (mid +:+ rest))) as [z|]; [by exists z|].
    change (Str.contains (String Re.newline "") (String c mid))
      with ((if ascii_dec Re.newline c then true else false)
            || Str.contains (String Re.newline "") mid) in Hn.
    apply orb_false_elim in Hn as [Hc Hn].
    destruct (ascii_dec c Re.newline) as [->|_].
    + by destruct (ascii_dec Re.newline Re.newline).
    + by apply IH.
Qed.

Lemma keyword_at_keyword kw rest :
  kw = "copyright" \/ kw = String Re.glyph "" ->
  Re.keyword_at (kw +:+ rest) = Some rest.
Proof. by intros [-> | ->]. Qed.

Lemma search_copyright_complete s :
  keyword_then_year s -> exists y, Re.search_copyright s = Some y.
Proof.
  intros (pre & kw & mid & post & d1 & d2 & -> & Hkw & H1 & H2 & Hn).
  induction pre as [|c pre IH].
  - change ("" +:+ ?x) with x.
    destruct (lazy_year_complete mid _ _ Hn (year_at_digits d1 d2 post H1 H2))
      as [z Hz].
    exists z. pose proof (keyword_at_keyword kw
      (mid +:+ String "2" (String "0" (String d1 (String d2 ""))) +:+ post) Hkw) as Hk.
    assert (exists a t, kw +:+ mid
              +:+ String "2" (String "0" (String d1 (String d2 ""))) +:+ post
            = String a t) as (a & t & Ht) by (destruct Hkw as [-> | ->]; by eexists _, _).
    rewrite Ht in Hk |- *. rewrite search_copyright_cons.
    unfold Re.copyright_at. by rewrite Hk, Hz.
  - rewrite append_cons, search_copyright_cons.
    destruct (Re.copyright_at _) as [z|]; [by exists z|]. exact IH.
Qed.

Lemma year_follows_keyword_then_year s y :
  year_follows_keyword s y -> keyword_then_year s /\ y <> "".
Proof.
  intros (pre & kw & mid & post & d1 & d2 & Hs & Hkw & -> & H1 & H2 & Hn & _).
  split; [|done]. by exists pre, kw, mid, post, d1, d2.
Qed.

Lemma copyright_at_match t y : Re.copyright_at t = Some y -> match_at t y.
Proof.
  unfold Re.copyright_at. destruct (Re.keyword_at t) as [rest|] eqn:Ek; [|done].
  intros (mid & post & d1 & d2 & Hs & Hy & H1 & H2 & Hn & Hfirst)%lazy_year_spec.
  destruct (keyword_at_spec _ _ Ek) as [Hkw|Hkw].
  - exists "copyright", mid, post, d1, d2.
    split_and!; try done; [|by left]. by rewrite Hkw, Hs.
  - exists (String Re.glyph ""), mid, post, d1, d2.
    split_and!; try done; [|by right]. by rewrite Hkw, Hs.
Qed.

Lemma match_at_starts t y : match_at t y -> starts_match t.
Proof.
  intros (kw & mid & post & d1 & d2 & Ht & Hkw & -> & H1 & H2 & Hn & _).
  by exists kw, mid, post, d1, d2.
Qed.

Lemma starts_match_copyright_at t :
  starts_match t -> exists y, Re.copyright_at t = Some y.
Proof.
  intros (kw & mid & post & d1 & d2 & -> & Hkw & H1 & H2 & Hn).
  unfold Re.copyright_at. rewrite (keyword_at_keyword kw _ Hkw).
  exact (lazy_year_complete mid _ _ Hn (year_at_digits d1 d2 post H1 H2)).
Qed.

(** The lazy span takes the nearest year. *)
Lemma lazy_year_exact mid y post :
  Re.year_at (y +:+ post) = Some y ->
  Str.contains (String Re.newline "") mid = false ->
  (forall m1 m2, mid = m1 +:+ m2 -> m2 <> "" ->
                 Re.year_at (m2 +:+ y +:+ post) = None) ->
  Re.lazy_year (mid +:+ y +:+ post) = Some y.
Proof.
  intros Hy. induction mid as [|c mid IH]; intros Hn Hfirst.
  - by apply lazy_year_year_at.
  - rewrite append_cons, lazy_year_cons.
    rewrite <- append_cons, (Hfirst "" (String c mid)) by done.
    change (Str.contains (String Re.newline "") (String c mid))
      with ((if ascii_dec Re.newline c then true else false)
            || Str.contains (String Re.newline "") mid) in Hn.
    apply orb_false_elim in Hn as [Hc Hn].
    destruct (ascii_dec c Re.newline) as [->|_].
    + by destruct (ascii_dec Re.newline Re.newline).
    + apply IH; [done|]. intros m1 m2 Hm Hm2.
      apply (Hfirst (String c m1) m2); [|done]. by rewrite append_cons, Hm.
Qed.

Lemma match_at_copyright_at t y : match_at t y -> Re.copyright_at t = Some y.
Proof.
  intros (kw & mid & post & d1 & d2 & -> & Hkw & -> & H1 & H2 & Hn & Hfirst).
  unfold Re.copyright_at. rewrite (keyword_at_keyword kw _ Hkw).
  apply lazy_year_exact; [by apply year_at_digits|done|done].
Qed.

(** The search returns the first year after a keyword. *)
Lemma search_copyright_first s y :
  Re.search_copyright s = Some y -> first_year_after_keyword s y.
Proof.
  induction s as [|c s IH]; [discriminate|].
  rewrite search_copyright_cons.
  destruct (Re.copyright_at (String c s)) as [y'|] eqn:E.
  - intros [= ->]. exists "", (String c s). split; [done|].
    split; [by apply copyright_at_match|].
    intros p1 p2 Hp Hp2. destruct p1; [|discriminate].
    change ("" +:+ p2) with p2 in Hp. congruence.
  - intros (pre & t & Hs & Hm & Hearly)%IH.
    exists (String c pre), t. split; [by rewrite append_cons, Hs|].
    split; [done|]. intros p1 p2 Hp Hp2 Hstart. destruct p1 as [|b p1].
    + change ("" +:+ p2) with p2 in Hp. subst p2.
      rewrite append_cons, <- Hs in Hstart.
      apply starts_match_copyright_at in Hstart as [z Hz]. congruence.
    + rewrite append_cons in Hp. injection Hp as _ Hp.
      by apply (Hearly p1 p2).
Qed.

(** And nothing else is the first year after a keyword. *)
Lemma first_search_copyright s y :
  first_year_after_keyword s y -> Re.search_copyright s = Some y.
Proof.
  intros (pre & t & -> & Hm & Hearly).
  induction pre as [|c pre IH].
  - change ("" +:+ t) with t. pose proof (match_at_copyright_at _ _ Hm) as Hc.
    destruct t as [|a t]; [done|]. by rewrite search_copyright_cons, Hc.
  - rewrite append_cons, search_copyright_cons.
    destruct (Re.copyright_at (String c (pre +:+ t))) as [z|] eqn:E.
    + exfalso. apply (Hearly "" (String c pre)); [done|done|].
      rewrite append_cons. by apply copyright_at_match, match_at_starts in E.
    + apply IH. intros p1 p2 Hp Hp2.
      apply (Hearly (String c p1) p2); [|done]. by rewrite append_cons, Hp.
Qed.

Lemma search_copyright_none_iff s :
  Re.search_copyright s = None <-> ~ keyword_then_year s.
Proof.
  split.
  - intros Hnone (y & Hy)%search_copyright_complete. congruence.
  - intros Hno. destruct (Re.search_copyright s) as [y|] eqn:E; [|done].
    exfalso. apply Hno.
    by apply search_copyright_spec, year_follows_keyword_then_year in E as [? _].
Qed.

(** On the body that holds both years, 2005 is the first year after a
    keyword and 2021 is not. *)
Example first_year_is_determined :
  let s := Str.lower ("Copyright 2005 Old Corp. " +:+ glyph_2021) in
  first_year_after_keyword s "2005" /\ ~ first_year_after_keyword s "2021".
Proof.
  intros s. split.
  - by apply search_copyright_first.
  - intros H%first_search_copyright. discriminate H.
Qed.

Lemma copyright_year_field env url response soup :
  requests_get env (fetch_url url) = Returned response ->
  status_code response = 200 ->
  BeautifulSoup env (text response) = Returned soup ->
  check_website env url !! "copyright_year"
  = Some (VStr (default "" (Re.search_copyright (Str.lower (text response))))).
Proof.
  intros Hf Hc Hp. destruct (check_website_200 _ _ _ _ Hf Hc Hp) as [-> Hret].
  destruct (Re.search_copyright (Str.lower (text response))) as [y|] eqn:E; simpl.
  - assert (assigns "copyright_year" (VStr y) (inspect_parsed env response soup)) as Hk.
    { unfold inspect_parsed. rewrite E. solve_assigns. }
    by apply (Hk _ tt).
  - assert (preserves (fun d => d !! "copyright_year" = Some (VStr ""))
              (inspect_parsed env response soup)) as Hk.
    { unfold inspect_parsed. rewrite E. solve_preserves. }
    apply Hk. lookup_field.
Qed.

(** C7 (as amended).  For a 200 response that is parsed,
    [copyright_year] is the first year after a keyword: the four digits
    [20dd] that follow, with no line feed and no other [20dd] starting
    in between, the first [copyright] keyword (in any letter case) or
    glyph of the body that has such a year after it on its line; it is
    empty exactly when no keyword or glyph of the body is followed on
    its line by a year [20dd].  So a body that holds
    [© 2021 Example Corp] with no [copyright] and no glyph before it
    gives ["2021"], and the body [Copyright 1999 Example], like any text
    without a [20dd], gives the empty string. *)
Theorem C7_copyright_year env url response soup :
  requests_get env (fetch_url url) = Returned response ->
  status_code response = 200 ->
  BeautifulSoup env (text response) = Returned soup ->
  let year := check_website env url !! "copyright_year" in
  (forall pre post,
      text response = pre +:+ glyph_2021 +:+ post ->
      Str.contains "copyright" (Str.lower pre) = false ->
      Str.contains (String Re.glyph "") (Str.lower pre) = false ->
      year = Some (VStr "2021"))
  /\ (text response = "Copyright 1999 Example" -> year = Some (VStr ""))
  /\ (Re.contains_year (Str.lower (text response)) = false -> year = Some (VStr ""))
  /\ (forall y, first_year_after_keyword (Str.lower (text response)) y ->
                year = Some (VStr y))
  /\ (forall y, year = Some (VStr y) -> y <> "" ->
                first_year_after_keyword (Str.lower (text response)) y)
  /\ (year = Some (VStr "") <-> ~ keyword_then_year (Str.lower (text response))).
Proof.
  intros Hf Hc Hp year. subst year.
  rewrite (copyright_year_field _ _ _ _ Hf Hc Hp). split_and!.
  - intros pre post -> Hk Hg. by rewrite search_glyph_2021.
  - by intros ->.
  - intros Hy. by rewrite search_copyright_none.
  - intros y Hy%first_search_copyright. by rewrite Hy.
  - intros y [= <-] Hne.
    destruct (Re.search_copyright (Str.lower (text response))) as [y|] eqn:E; [|done].
    by apply search_copyright_first.
  - rewrite <- search_copyright_none_iff.
    destruct (Re.search_copyright (Str.lower (text response))) as [y|] eqn:E.
    + split; [|done]. intros [= Hy]. simpl in Hy. subst y.
      by apply search_copyright_spec, year_follows_keyword_then_year in E as [_ ?].
    + done.
Qed.

Lemma C7_copyright_year_witness :
  check_website
    (serving 200 ("<footer>" +:+ glyph_2021 +:+ "</footer>") no_tags)
    "example.com" !! "copyright_year" = Some (VStr "2021")
  /\ check_website (serving 200 "Copyright 1999 Example" no_tags)
       "example.com" !! "copyright_year" = Some (VStr "").
Proof.
  split.
  - refine (proj1 (C7_copyright_year
             (serving 200 ("<footer>" +:+ glyph_2021 +:+ "</footer>") no_tags)
             "example.com"
             {| status_code := 200;
                text := "<footer>" +:+ glyph_2021 +:+ "</footer>" |}
             no_tags _ _ _) "<footer>" "</footer>" _ _ _); reflexivity.
  - refine (proj1 (proj2 (C7_copyright_year
             (serving 200 "Copyright 1999 Example" no_tags) "example.com"
             {| status_code := 200; text := "Copyright 1999 Example" |}
             no_tags _ _ _)) _); reflexivity.
Defined.

(** C7 as stated fails: the first two bodies contain the quoted texts,
    and the record holds another year, the one of the first match; in
    the third a year follows the keyword, on the next line, and the
    record holds none. *)
Lemma C7_counterexample :
  let body1 := "Copyright 2005 Old Corp. " +:+ glyph_2021 in
  let body2 := "Copyright 1999 Example, renewed 2024" in
  let body3 := "Copyright" +:+ String Re.newline "2021 Example Corp" in
  (Str.contains glyph_2021 body1 = true
   /\ check_website (serving 200 body1 no_tags) "example.com" !! "copyright_year"
      = Some (VStr "2005"))
  /\ (Str.contains "Copyright 1999 Example" body2 = true
      /\ check_website (serving 200 body2 no_tags) "example.com" !! "copyright_year"
         = Some (VStr "2024"))
  /\ (Str.startswith "Copyright" body3 = true
      /\ Str.contains "2021" body3 = true
      /\ check_website (serving 200 body3 no_tags) "example.com" !! "copyright_year"
         = Some (VStr "")).
Proof. vm_compute. done. Qed.

(** ** The Batch Runner's claims *)

(** *** The keys of a record *)

Lemma initial_results_dom url :
  dom (initial_results url) = list_to_set fieldnames.
Proof.
  unfold initial_results. rewrite !dom_insert_L, dom_empty_L.
  unfold fieldnames. simpl. set_solver.
Qed.

Lemma insert_keeps_dom (k : string) (v : value) (d : dict) :
  k ∈ fieldnames -> dom d = list_to_set fieldnames ->
  dom (<[k := v]> d) = list_to_set fieldnames.
Proof.
  intros Hk Hd. rewrite dom_insert_L, Hd.
  apply subseteq_union_1_L, singleton_subseteq_l.
  by apply elem_of_list_to_set.
Qed.

Ltac in_fieldnames :=
  apply list_elem_of_In; unfold fieldnames; simpl;
  repeat first [left; reflexivity | right].

Ltac dom_step :=
  first
    [ progress cbv beta iota
    | apply preserves_bind; [|intros ?]
    | apply preserves_when
    | apply preserves_ret
    | apply preserves_call
    | apply preserves_set; intros ? ?; apply insert_keeps_dom; [in_fieldnames | assumption]
    | match goal with
      | |- preserves _ (match ?x with _ => _ end) => destruct x
      end ].

Lemma try_block_dom env url :
  preserves (fun d => dom d = list_to_set fieldnames) (try_block env url).
Proof. unfold try_block, inspect, inspect_parsed. repeat dom_step. Qed.

(** The keys of a record are exactly the [fieldnames]: the writer finds
    every cell and meets no key it does not know. *)
Lemma check_website_dom env url :
  dom (check_website env url) = list_to_set fieldnames.
Proof.
  pose proof (try_block_dom env url _ (initial_results_dom url)) as H.
  unfold check_website.
  destruct (try_block env url (initial_results url)) as [[e|[]] d]; simpl in H; [|done].
  unfold handler. do 2 (apply insert_keeps_dom; [in_fieldnames|]). done.
Qed.

Lemma check_website_has_key env url key :
  key ∈ fieldnames -> is_Some (check_website env url !! key).
Proof.
  intros Hk. apply elem_of_dom. rewrite check_website_dom.
  by apply elem_of_list_to_set.
Qed.

Lemma ensure_keys_id (d : dict) :
  (forall key, key ∈ fieldnames -> is_Some (d !! key)) -> ensure_keys d = d.
Proof.
  unfold ensure_keys. induction fieldnames as [|key l IH]; intros H; [done|].
  simpl. destruct (H key) as [v ->]; [by left|].
  apply IH. intros k Hk. apply H. by right.
Qed.

Lemma ensure_keys_check_website env url :
  ensure_keys (check_website env url) = check_website env url.
Proof. apply ensure_keys_id, check_website_has_key. Qed.

(** *** The loop *)

(** The loop appends the batches, one block each, and nothing else. *)
Lemma check_all_files envs total websites :
  forall index batch_results w written,
    results_csv w = Some written ->
    let flushed := batches total index batch_results (records envs index websites) in
    let w' := check_all envs total index websites batch_results w in
    results_csv w' = Some (written ++ (writerow <$> concat flushed))
    /\ output_log w' = output_log w ++ ((fun b => Appended (writerow <$> b)) <$> flushed)
    /\ websites_csv w' = websites_csv w.
Proof.
  induction websites as [|url rest IH]; intros index batch_results w written Hw.
  - simpl. by rewrite !app_nil_r.
  - cbn [check_all records batches]. rewrite ensure_keys_check_website.
    set (result := check_website (envs index) url).
    set (batch := batch_results ++ [result]).
    destruct ((BATCH_SIZE <=? length batch)%nat || (index =? total)%nat).
    + set (w1 := append_batch batch _).
      assert (results_csv w1 = Some (written ++ (writerow <$> batch))) as Hw1.
      { unfold w1, append_batch. simpl. by rewrite Hw. }
      destruct (IH (S index) [] w1 _ Hw1) as (Hr & Hl & Hi).
      split_and!.
      * rewrite Hr. simpl. by rewrite fmap_app, app_assoc.
      * rewrite Hl. simpl. by rewrite <- app_assoc.
      * by rewrite Hi.
    + set (w1 := print_details result _).
      assert (results_csv w1 = Some written) as Hw1 by done.
      destruct (IH (S index) batch w1 _ Hw1) as (Hr & Hl & Hi).
      by split_and!.
Qed.

(** When the loop ends on the index [total], everything is flushed. *)
Lemma batches_concat total coming :
  forall index batch_results,
    (index + length coming = S total)%nat ->
    coming <> [] \/ batch_results = [] ->
    concat (batches total index batch_results coming) = batch_results ++ coming.
Proof.
  induction coming as [|result rest IH]; intros index batch_results Hlen Hne.
  - destruct Hne as [Hne| ->]; done.
  - cbn [batches].
    destruct (Nat.eqb_spec index total) as [->|Hidx].
    + rewrite orb_true_r. simpl in Hlen.
      assert (rest = []) as -> by (apply nil_length_inv; lia).
      simpl. by rewrite app_nil_r.
    + rewrite orb_false_r.
      destruct (BATCH_SIZE <=? length (batch_results ++ [result]))%nat.
      * simpl. rewrite IH; [by rewrite <- app_assoc | simpl in Hlen; lia | by right].
      * rewrite IH; [by rewrite <- app_assoc | simpl in Hlen; lia |].
        left. intros ->. simpl in Hlen. lia.
Qed.

Lemma batches_sizes total coming :
  forall index batch_results,
    length <$> batches total index batch_results coming
    = batch_sizes total index (length batch_results) (length coming).
Proof.
  induction coming as [|result rest IH]; intros index batch_results; [done|].
  change (length (result :: rest)) with (S (length rest)).
  cbn [batches batch_sizes].
  assert (length (batch_results ++ [result]) = S (length batch_results)) as Hlen
    by (rewrite length_app; simpl; lia).
  rewrite Hlen.
  destruct ((BATCH_SIZE <=? S (length batch_results))%nat || (index =? total)%nat).
  - rewrite fmap_cons, Hlen. f_equal. apply IH.
  - by rewrite IH, Hlen.
Qed.

Lemma records_length envs index websites :
  length (records envs index websites) = length websites.
Proof.
  revert index. induction websites as [|url rest IH]; intros index; [done|].
  simpl. by rewrite IH.
Qed.

Lemma records_lookup envs websites :
  forall index i url,
    websites !! i = Some url ->
    records envs index websites !! i = Some (check_website (envs (index + i)%nat) url).
Proof.
  induction websites as [|u rest IH]; intros index i url; [done|].
  destruct i as [|i]; simpl.
  - intros [= ->]. by rewrite Nat.add_0_r.
  - intros H. rewrite (IH (S index) i url H). do 3 f_equal. lia.
Qed.

(** What [main] leaves behind when the input file exists. *)
Lemma main_files envs w rows :
  websites_csv w = Some rows ->
  let websites := read_websites rows in
  let flushed := batches (length websites) 1 [] (records envs 1 websites) in
  results_csv (main envs w)
  = Some ((VStr <$> fieldnames) :: (writerow <$> records envs 1 websites))
  /\ output_log (main envs w)
     = output_log w ++ WroteHeader (VStr <$> fieldnames)
         :: ((fun b => Appended (writerow <$> b)) <$> flushed).
Proof.
  intros Hrows websites flushed. unfold main. simpl. rewrite Hrows.
  fold websites.
  set (w1 := write_header _).
  destruct (check_all_files envs (length websites) websites 1 [] w1
              [VStr <$> fieldnames] eq_refl) as (Hr & Hl & _).
  simpl. split.
  - rewrite Hr. rewrite batches_concat; [done| |].
    + rewrite records_length. lia.
    + by right.
  - rewrite Hl. unfold w1. simpl. by rewrite <- app_assoc.
Qed.

(** C5.  With 250 URLs in the input and the batch size of 100, the run
    opens the output file for appending exactly three times, writing
    100, 100 and 50 rows, each batch starting from a cleared buffer; the
    output file then holds the header row and 250 data rows. *)
Theorem C5_three_flushes envs w rows :
  websites_csv w = Some rows ->
  length (read_websites rows) = 250%nat ->
  BATCH_SIZE = 100%nat
  /\ exists b1 b2 b3,
       output_log (main envs w)
       = output_log w ++ [WroteHeader (VStr <$> fieldnames);
                          Appended b1; Appended b2; Appended b3]
       /\ length b1 = 100%nat /\ length b2 = 100%nat /\ length b3 = 50%nat
       /\ results_csv (main envs w) = Some ((VStr <$> fieldnames) :: b1 ++ b2 ++ b3)
       /\ length (b1 ++ b2 ++ b3) = 250%nat.
Proof.
  intros Hrows Hlen. split; [reflexivity|].
  destruct (main_files envs w rows Hrows) as [Hr Hl].
  set (websites := read_websites rows) in *.
  set (coming := records envs 1 websites) in *.
  assert (length coming = 250%nat) as Hc by (unfold coming; by rewrite records_length).
  pose proof (batches_sizes (length websites) coming 1 []) as Hs.
  pose proof (batches_concat (length websites) coming 1 []) as Hcat.
  rewrite Hc, Hlen in Hs. rewrite Hc, Hlen in Hcat.
  specialize (Hcat eq_refl (or_intror eq_refl)).
  rewrite Hlen in Hl.
  destruct (batches 250 1 [] coming) as [|f1 [|f2 [|f3 [|f4 fs]]]];
    try discriminate Hs.
  injection Hs as H1 H2 H3. simpl in Hcat. rewrite app_nil_r in Hcat.
  exists (writerow <$> f1), (writerow <$> f2), (writerow <$> f3).
  rewrite !length_app, !length_fmap, H1, H2, H3.
  split_and!; try done.
  rewrite Hr, <- Hcat. by rewrite !fmap_app.
Qed.

Lemma C5_three_flushes_witness :
  length (read_websites (replicate 250 ["example.com"])) = 250%nat
  /\ exists b1 b2 b3,
       output_log (main (fun _ => unreachable read_timeout) (world_with 250))
       = [WroteHeader (VStr <$> fieldnames); Appended b1; Appended b2; Appended b3]
       /\ length b1 = 100%nat /\ length b2 = 100%nat /\ length b3 = 50%nat.
Proof.
  split; [reflexivity|].
  destruct (C5_three_flushes (fun _ => unreachable read_timeout) (world_with 250)
              (replicate 250 ["example.com"]) eq_refl eq_refl)
    as (_ & b1 & b2 & b3 & Hl & H1 & H2 & H3 & _).
  exists b1, b2, b3. split; [exact Hl|]. split; [exact H1|]. split; [exact H2|exact H3].
Defined.

(** C9.  When the input file does not exist, the run prints that it is
    reading, then that the file was not found, and ends: the output file
    is as it was (not created if it did not exist) and was never opened. *)
Theorem C9_missing_input envs w :
  websites_csv w = None ->
  results_csv (main envs w) = results_csv w
  /\ output_log (main envs w) = output_log w
  /\ stdout (main envs w)
     = stdout w ++ [ [Lit "Reading from "; Fmt (VStr "websites.csv"); Lit "..."];
                     [Lit "Error: "; Fmt (VStr "websites.csv"); Lit " not found."] ].
Proof.
  intros H. unfold main. simpl. rewrite H. simpl.
  by rewrite <- app_assoc.
Qed.

Lemma C9_missing_input_witness :
  websites_csv empty_world = None
  /\ results_csv (main (fun _ => unreachable read_timeout) empty_world) = None
  /\ output_log (main (fun _ => unreachable read_timeout) empty_world) = [].
Proof.
  split; [reflexivity|].
  destruct (C9_missing_input (fun _ => unreachable read_timeout) empty_world eq_refl)
    as (Hr & Hl & _).
  split; assumption.
Defined.

Lemma writerow_cell (d : dict) j key v :
  fieldnames !! j = Some key -> d !! key = Some v -> writerow d !! j = Some v.
Proof.
  intros Hj Hv. unfold writerow. by rewrite list_lookup_fmap, Hj; simpl; rewrite Hv.
Qed.

(** C10.  The output file holds, after the header, one row per URL, in
    input order, and each cell of a row is the value that [check_website]
    returned for that field: the runner changes no record, and the cut
    made for the display does not reach the file. *)
Theorem C10_persisted_values envs w rows :
  websites_csv w = Some rows ->
  exists data,
    results_csv (main envs w) = Some ((VStr <$> fieldnames) :: data)
    /\ length data = length (read_websites rows)
    /\ forall i url j key,
         read_websites rows !! i = Some url ->
         fieldnames !! j = Some key ->
         exists v,
           check_website (envs (S i)) url !! key = Some v
           /\ cell_at data i j = Some v.
Proof.
  intros Hrows. destruct (main_files envs w rows Hrows) as [Hr _].
  exists (writerow <$> records envs 1 (read_websites rows)).
  split_and!; [done|by rewrite length_fmap, records_length|].
  intros i url j key Hi Hj.
  destruct (check_website_has_key (envs (S i)) url key) as [v Hv].
  { by apply list_elem_of_lookup_2 in Hj. }
  exists v. split; [done|].
  unfold cell_at. rewrite list_lookup_fmap, (records_lookup _ _ 1 i url Hi). simpl.
  by apply (writerow_cell _ j key).
Qed.

Lemma C10_persisted_values_witness :
  websites_csv (world_with 1) = Some [["example.com"]]
  /\ exists data v,
       results_csv (main (fun _ => titled) (world_with 1))
       = Some ((VStr <$> fieldnames) :: data)
       /\ check_website titled "example.com" !! "site_title" = Some v
       /\ cell_at data 0 3 = Some v.
Proof.
  split; [reflexivity|].
  destruct (C10_persisted_values (fun _ => titled) (world_with 1)
              [["example.com"]] eq_refl) as (data & Hr & _ & Hcells).
  destruct (Hcells 0%nat "example.com" 3%nat "site_title" eq_refl eq_refl)
    as (v & Hv & Hd).
  exists data, v. split; [exact Hr|]. split; [exact Hv|exact Hd].
Defined.

(** The title is displayed cut at 50 characters and written whole. *)
Example display_cut_file_whole :
  let w := main (fun _ => titled) (world_with 1) in
  (50 < Str.len long_title)%nat
  /\ stdout w !! 6%nat
     = Some [Lit "  Title:    "; Fmt (VStr (Str.take 50 long_title)); Lit "..."]
  /\ cell_at (default [] (results_csv w)) 1 3 = Some (VStr long_title).
Proof. vm_compute. split; [lia|done]. Qed.

(** ** Further properties of [check_website] *)

(** *** Outcomes and keys *)

Lemma status_field env url :
  check_website env url !! "status"
  = Some (match requests_get env (fetch_url url) with
          | Raised e => VStr ("Error: " +:+ e)
          | Returned response =>
              if status_code response =? 200 then
                match BeautifulSoup env (text response) with
                | Raised e => VStr ("Error: " +:+ e)
                | Returned _ => VInt (status_code response)
                end
              else VInt (status_code response)
          end).
Proof.
  destruct (requests_get env (fetch_url url)) as [e|response] eqn:Hf.
  - rewrite (check_website_raised_fetch _ _ e Hf). lookup_field.
  - destruct (Z.eqb_spec (status_code response) 200) as [Hc|Hc].
    + destruct (BeautifulSoup env (text response)) as [e|soup] eqn:Hp.
      * rewrite (check_website_raised_parse _ _ _ e Hf Hc Hp). lookup_field.
      * destruct (check_website_200 _ _ _ _ Hf Hc Hp) as [-> _].
        rewrite <- (inspect_returned env response soup) by done.
        apply (inspect_keeps env response "status"); [set_solver|lookup_field].
    + rewrite (check_website_not_200 _ _ _ Hf Hc). lookup_field.
Qed.

(** X1.  A response whose status is not 200 is not inspected: the record
    holds the status code, the rounded elapsed time and [is_https], and
    every other field is as the record was created, whatever the body. *)
Theorem X1_other_status env url response :
  requests_get env (fetch_url url) = Returned response ->
  status_code response <> 200 ->
  let r := check_website env url in
  r !! "status" = Some (VInt (status_code response))
  /\ r !! "load_time_seconds" = Some (elapsed env)
  /\ r !! "is_https" = Some (VBool (Str.startswith "https" (fetch_url url)))
  /\ forall k, k ∉ ["status"; "load_time_seconds"; "is_https"] ->
               r !! k = initial_results url !! k.
Proof.
  intros Hf Hc r. subst r. rewrite (check_website_not_200 _ _ _ Hf Hc).
  split_and!; [lookup_field..|].
  intros k Hk. unfold responded, started.
  rewrite !lookup_insert_ne; [reflexivity|set_solver..].
Qed.

Lemma X1_other_status_witness :
  let r := check_website
             (serving 404 "<a href='/wp-content/plugins/akismet/'>gone</a>" no_tags)
             "example.com" in
  r !! "status" = Some (VInt 404)
  /\ r !! "is_wordpress" = Some (VBool false)
  /\ r !! "plugin_count" = Some (VInt 0).
Proof.
  intros r.
  destruct (X1_other_status
              (serving 404 "<a href='/wp-content/plugins/akismet/'>gone</a>" no_tags)
              "example.com"
              {| status_code := 404;
                 text := "<a href='/wp-content/plugins/akismet/'>gone</a>" |}
              eq_refl) as (Hs & _ & _ & Hk); [discriminate|].
  split; [exact Hs|]. split.
  - apply (Hk "is_wordpress").
    repeat (apply not_elem_of_cons; split; [discriminate|]). apply not_elem_of_nil.
  - apply (Hk "plugin_count").
    repeat (apply not_elem_of_cons; split; [discriminate|]). apply not_elem_of_nil.
Defined.

(** X2.  [status] is the discriminator of the record: the message
    ["Error: ..."] exactly when an exception was raised, the response's
    status code otherwise; the placeholder ["Error"] the record is
    created with never survives a call. *)
Theorem X2_status_discriminates env url :
  match raised env url with
  | Some (_, e) => check_website env url !! "status" = Some (VStr ("Error: " +:+ e))
  | None =>
      exists response,
        requests_get env (fetch_url url) = Returned response
        /\ check_website env url !! "status" = Some (VInt (status_code response))
  end
  /\ check_website env url !! "status" <> initial_results url !! "status".
Proof.
  rewrite status_field. unfold raised.
  replace (initial_results url !! "status") with (Some (VStr "Error"))
    by (symmetry; lookup_field).
  destruct (requests_get env (fetch_url url)) as [e|response]; [done|].
  destruct (status_code response =? 200).
  - destruct (BeautifulSoup env (text response)) as [e|soup]; [done|].
    split; [by exists response|done].
  - split; [by exists response|done].
Qed.

(** X3.  A record has exactly the eighteen keys of [fieldnames], so the
    key-defaulting loop of [main] changes nothing and every cell the
    writer puts in a row is a value of the record, in header order. *)
Theorem X3_record_keys env url :
  dom (check_website env url) = list_to_set fieldnames
  /\ ensure_keys (check_website env url) = check_website env url
  /\ Forall2 (fun key cell => check_website env url !! key = Some cell)
       fieldnames (writerow (check_website env url)).
Proof.
  split_and!.
  - apply check_website_dom.
  - apply ensure_keys_check_website.
  - unfold writerow. pose proof (check_website_has_key env url) as Hkeys.
    induction fieldnames as [|key l IH]; [constructor|].
    rewrite fmap_cons. constructor.
    + destruct (Hkeys key) as [v ->]; [by left|done].
    + apply IH. intros k Hk. apply Hkeys. by right.
Qed.

(** X4.  The URL that is fetched always starts with [http]; it is the
    input, or the input with [https://] in front; and normalising it again
    changes nothing. *)
Theorem X4_fetch_url url :
  Str.startswith "http" (fetch_url url) = true
  /\ (fetch_url url = url \/ fetch_url url = "https://" +:+ url)
  /\ fetch_url (fetch_url url) = fetch_url url.
Proof.
  unfold fetch_url. destruct (Str.startswith "http" url) eqn:E; cbn [negb].
  - rewrite E. cbn [negb]. auto.
  - split_and!; [reflexivity|by right|reflexivity].
Qed.

(** *** Extracted text is stripped *)

Lemma rstrip_cons c s :
  Str.rstrip (String c s)
  = match Str.rstrip s with
    | EmptyString => if Str.is_space c then EmptyString else String c EmptyString
    | r => String c r
    end.
Proof. reflexivity. Qed.

Lemma lstrip_cons c s :
  Str.lstrip (String c s) = if Str.is_space c then Str.lstrip s else String c s.
Proof. reflexivity. Qed.

Lemma rstrip_idem s : Str.rstrip (Str.rstrip s) = Str.rstrip s.
Proof.
  induction s as [|c s IH]; [done|].
  rewrite rstrip_cons. destruct (Str.rstrip s) as [|b r] eqn:E.
  - destruct (Str.is_space c) eqn:Ec; [done|].
    rewrite rstrip_cons. simpl. by rewrite Ec.
  - rewrite rstrip_cons, IH. done.
Qed.

(** [rstrip] keeps the first character of a text that does not start
    with a space. *)
Lemma rstrip_head c s :
  Str.is_space c = false -> exists r, Str.rstrip (String c s) = String c r.
Proof.
  intros Hc. rewrite rstrip_cons. destruct (Str.rstrip s) as [|b r].
  - rewrite Hc. by eexists.
  - by eexists.
Qed.

Lemma lstrip_head s :
  Str.lstrip s = "" \/ exists c t, Str.lstrip s = String c t /\ Str.is_space c = false.
Proof.
  induction s as [|c s IH]; [by left|].
  rewrite lstrip_cons. destruct (Str.is_space c) eqn:Ec; [done|].
  right. by exists c, s.
Qed.

Lemma strip_lstrip s : Str.lstrip (Str.strip s) = Str.strip s.
Proof.
  unfold Str.strip. destruct (lstrip_head s) as [->|(c & t & -> & Hc)]; [done|].
  destruct (rstrip_head c t Hc) as [r ->]. by rewrite lstrip_cons, Hc.
Qed.

Lemma strip_rstrip s : Str.rstrip (Str.strip s) = Str.strip s.
Proof. apply rstrip_idem. Qed.

Lemma strip_idem s : Str.strip (Str.strip s) = Str.strip s.
Proof.
  unfold Str.strip at 1. rewrite strip_lstrip. apply strip_rstrip.
Qed.

(** The first and the last character of a stripped text are no spaces. *)
Lemma rstrip_last s c :
  Str.rstrip s = s -> forall t, s = t +:+ String c "" -> Str.is_space c = false.
Proof.
  revert c. induction s as [|a s IH]; intros c Hs t Ht.
  - destruct t; discriminate.
  - rewrite rstrip_cons in Hs. destruct t as [|b t].
    + change ("" +:+ String c "") with (String c "") in Ht.
      injection Ht as -> ->. simpl in Hs.
      destruct (Str.is_space c); [discriminate|done].
    + rewrite append_cons in Ht. injection Ht as -> Ht.
      destruct (Str.rstrip s) as [|b' r] eqn:E.
      * destruct (Str.is_space b); [discriminate|].
        injection Hs as Hs. subst s. destruct t; discriminate.
      * injection Hs as Hs. apply (IH c) with t; [exact Hs|exact Ht].
Qed.

Lemma strip_stripped s : stripped (Str.strip s).
Proof.
  split_and!.
  - apply strip_idem.
  - intros c t Hs. pose proof (strip_lstrip s) as H. rewrite Hs in H.
    rewrite lstrip_cons in H. destruct (Str.is_space c) eqn:Ec; [|done].
    exfalso. assert (String.length (Str.lstrip t) <= String.length t)%nat as Hlen.
    { clear. induction t as [|a t IH]; [done|]. rewrite lstrip_cons.
      destruct (Str.is_space a); simpl; lia. }
    rewrite H in Hlen. simpl in Hlen. lia.
  - intros c t Hs. apply (rstrip_last (Str.strip s) c (strip_rstrip s) t Hs).
Qed.

Lemma empty_stripped : stripped "".
Proof.
  split_and!; [done|discriminate|]. intros c [|b t] H; discriminate.
Qed.

Ltac stripped_step :=
  first
    [ progress cbv beta iota
    | apply preserves_bind; [|intros ?]
    | apply preserves_when
    | apply preserves_ret
    | apply preserves_call
    | apply preserves_set; intros ? (?s & ?Hs & ?Hst);
      first
        [ eexists; split; [by rewrite lookup_insert_ne | eassumption]
        | eexists; split; [apply lookup_insert_eq |];
          repeat case_match; first [apply strip_stripped | apply empty_stripped] ]
    | match goal with
      | |- preserves _ (match ?x with _ => _ end) => destruct x
      end ].

Lemma try_block_stripped env url k :
  k = "site_title" \/ k = "meta_description" ->
  preserves (holds_stripped k) (try_block env url).
Proof.
  unfold holds_stripped, try_block, inspect, inspect_parsed.
  intros [-> | ->]; repeat stripped_step.
Qed.

(** X5.  In every record, [site_title] and [meta_description] are texts
    that neither start nor end with a space: stripping them again changes
    nothing. *)
Theorem X5_text_is_stripped env url k :
  k = "site_title" \/ k = "meta_description" ->
  exists s, check_website env url !! k = Some (VStr s) /\ stripped s.
Proof.
  intros Hk.
  assert (holds_stripped k (initial_results url)) as Hinit.
  { exists "". split; [|apply empty_stripped]. destruct Hk as [-> | ->]; lookup_field. }
  pose proof (try_block_stripped env url k Hk _ Hinit) as H.
  unfold check_website.
  destruct (try_block env url (initial_results url)) as [[e|[]] d]; simpl in H; [|done].
  destruct H as (s & Hs & Hst). exists s. split; [|done].
  unfold handler. destruct Hk as [-> | ->]; by rewrite !lookup_insert_ne.
Qed.

Lemma X5_text_is_stripped_witness :
  exists s,
    check_website
      (serving 200 "<title>  Hello  </title>"
         {| title := Some (Some "  Hello  "); metas := [] |})
      "example.com" !! "site_title" = Some (VStr s)
    /\ stripped s.
Proof.
  apply (X5_text_is_stripped
           (serving 200 "<title>  Hello  </title>"
              {| title := Some (Some "  Hello  "); metas := [] |})
           "example.com" "site_title").
  left. reflexivity.
Defined.

(** *** Slugs *)

Lemma all_chars_app f a b :
  all_chars f (a +:+ b) = all_chars f a && all_chars f b.
Proof.
  induction a as [|c a IH]; [done|]. rewrite append_cons. simpl.
  by rewrite IH, andb_assoc.
Qed.

Lemma span_spec f s :
  s = (Str.span f s).1 +:+ (Str.span f s).2
  /\ all_chars f (Str.span f s).1 = true.
Proof.
  induction s as [|c s [IH1 IH2]]; [done|]. simpl.
  destruct (f c) eqn:Ec; [|done].
  destruct (Str.span f s) as [a b]. simpl in *.
  rewrite append_cons, <- IH1, Ec. done.
Qed.

Lemma drop_app p r : Str.drop (Str.len p) (p +:+ r) = r.
Proof. induction p as [|c p IH]; [done|]. rewrite append_cons. exact IH. Qed.

Lemma slug_at_spec prefix cls s slug n :
  Re.slug_at prefix cls s = Some (slug, n) ->
  exists post,
    s = prefix +:+ slug +:+ "/" +:+ post
    /\ all_chars cls slug = true /\ slug <> "".
Proof.
  unfold Re.slug_at. destruct (Str.startswith prefix s) eqn:E; [|done].
  apply startswith_spec in E as [r ->]. rewrite drop_app.
  destruct (span_spec cls r) as [Hr Hall].
  destruct (Str.span cls r) as [a b]. simpl in *.
  destruct a as [|c a]; [done|]. destruct b as [|d post]; [done|].
  destruct (decide (d = "/"%char)) as [->|Hne].
  - intros [= <- _]. exists post. by rewrite Hr.
  - intros H. exfalso. revert H.
    by destruct d as [[] [] [] [] [] [] [] []].
Qed.

Lemma search_slug_cons prefix cls c s :
  Re.search_slug prefix cls (String c s)
  = match Re.slug_at prefix cls (String c s) with
    | Some (g, _) => Some g
    | None => Re.search_slug prefix cls s
    end.
Proof. reflexivity. Qed.

Lemma findall_slug_cons skip prefix cls c s :
  Re.findall_slug_from skip prefix cls (String c s)
  = match skip with
    | S k => Re.findall_slug_from k prefix cls s
    | O =>
        match Re.slug_at prefix cls (String c s) with
        | Some (g, n) => g :: Re.findall_slug_from (Nat.pred n) prefix cls s
        | None => Re.findall_slug_from O prefix cls s
        end
    end.
Proof. reflexivity. Qed.

Lemma search_slug_spec prefix cls s slug :
  Re.search_slug prefix cls s = Some slug ->
  path_in prefix slug s /\ all_chars cls slug = true /\ slug <> "".
Proof.
  induction s as [|c s IH].
  - simpl. destruct (Re.slug_at prefix cls "") as [[g n]|] eqn:E; [|done].
    intros [= ->]. apply slug_at_spec in E as (post & Hs & Hall & Hne).
    split; [|done]. by exists "", post.
  - rewrite search_slug_cons.
    destruct (Re.slug_at prefix cls (String c s)) as [[g n]|] eqn:E.
    + intros [= ->]. apply slug_at_spec in E as (post & Hs & Hall & Hne).
      split; [|done]. by exists "", post.
    + intros [(pre & post & Hs) Hrest]%IH. split; [|done].
      exists (String c pre), post. by rewrite append_cons, Hs.
Qed.

Lemma findall_slug_spec prefix cls s :
  forall skip slug,
    slug ∈ Re.findall_slug_from skip prefix cls s ->
    path_in prefix slug s /\ all_chars cls slug = true /\ slug <> "".
Proof.
  induction s as [|c s IH]; intros skip slug.
  - simpl. by intros ?%elem_of_nil.
  - rewrite findall_slug_cons.
    assert (forall k, slug ∈ Re.findall_slug_from k prefix cls s ->
                      path_in prefix slug (String c s)
                      /\ all_chars cls slug = true /\ slug <> "") as Htail.
    { intros k [(pre & post & Hs) Hrest]%IH. split; [|done].
      exists (String c pre), post. by rewrite append_cons, Hs. }
    destruct skip as [|k]; [|apply Htail].
    destruct (Re.slug_at prefix cls (String c s)) as [[g n]|] eqn:E; [|apply Htail].
    intros [->|Hin]%elem_of_cons; [|by apply Htail in Hin].
    apply slug_at_spec in E as (post & Hs & Hall & Hne).
    split; [|done]. by exists "", post.
Qed.

Lemma lower_char_not_upper c : Str.is_upper_az (Str.lower_char c) = false.
Proof. by destruct c as [[] [] [] [] [] [] [] []]. Qed.

Lemma lower_not_upper s :
  all_chars (fun c => negb (Str.is_upper_az c)) (Str.lower s) = true.
Proof.
  induction s as [|c s IH]; [done|]. simpl.
  by rewrite lower_char_not_upper, IH.
Qed.

Lemma plugin_char_lower c :
  Re.plugin_char c = true -> Str.is_upper_az c = false -> Re.theme_char c = true.
Proof.
  unfold Re.plugin_char, Re.theme_char. intros H Hu.
  by rewrite Hu, orb_false_r in H.
Qed.

Lemma all_chars_lower_slug slug :
  all_chars Re.plugin_char slug = true ->
  all_chars (fun c => negb (Str.is_upper_az c)) slug = true ->
  all_chars Re.theme_char slug = true.
Proof.
  induction slug as [|c slug IH]; [done|]. simpl.
  intros [Hc Hs]%andb_prop [Hu Hs']%andb_prop.
  rewrite IH by done. rewrite plugin_char_lower; [done|done|].
  by destruct (Str.is_upper_az c).
Qed.

(** A slug found in a lower-cased text has no capital letter. *)
Lemma path_in_lower prefix slug s :
  path_in prefix slug (Str.lower s) ->
  all_chars (fun c => negb (Str.is_upper_az c)) slug = true.
Proof.
  intros (pre & post & Hs). pose proof (lower_not_upper s) as H.
  rewrite Hs, !all_chars_app in H.
  apply andb_prop in H as [_ H]. apply andb_prop in H as [_ H].
  by apply andb_prop in H as [H _].
Qed.

(** [k ∉ [...]] for a literal key, and [k <> "..."] from [Hk : k ∉ [...]]. *)
Ltac key_not_in :=
  repeat (apply not_elem_of_cons; split; [discriminate|]); apply not_elem_of_nil.

Ltac key_neq Hk :=
  let E := fresh in
  intros E; apply Hk; rewrite E;
  repeat first [apply list_elem_of_here | apply list_elem_of_further].

Lemma not_inspected env url :
  inspected env url = None ->
  forall k, k ∉ ["status"; "load_time_seconds"; "is_https"] ->
            check_website env url !! k = initial_results url !! k.
Proof.
  unfold inspected. intros H k Hk.
  assert (k <> "status") as Hs by key_neq Hk.
  assert (forall d, d !! k = initial_results url !! k ->
                    d !! "plugin_names" = Some (VStr "") ->
                    forall e, handler e d !! k = initial_results url !! k) as Hh.
  { intros d Hd Hp e. by rewrite handler_other. }
  assert (started url !! k = initial_results url !! k) as Hst.
  { unfold started. rewrite lookup_insert_ne; [done|key_neq Hk]. }
  assert (forall response, responded env url response !! k = initial_results url !! k)
    as Hre.
  { intros response. unfold responded, started.
    rewrite !lookup_insert_ne; [done|key_neq Hk..]. }
  destruct (requests_get env (fetch_url url)) as [e|response] eqn:Hf.
  - rewrite (check_website_raised_fetch _ _ e Hf). apply Hh; [done|lookup_field].
  - destruct (Z.eqb_spec (status_code response) 200) as [Hc|Hc].
    + destruct (BeautifulSoup env (text response)) as [e|soup] eqn:Hp; [|done].
      rewrite (check_website_raised_parse _ _ _ e Hf Hc Hp).
      apply Hh; [done|lookup_field].
    + by rewrite (check_website_not_200 _ _ _ Hf Hc).
Qed.

Lemma inspected_some env url response :
  inspected env url = Some response ->
  exists soup,
    requests_get env (fetch_url url) = Returned response
    /\ status_code response = 200
    /\ BeautifulSoup env (text response) = Returned soup.
Proof.
  intros H. pose proof (inspected_cases env url) as Hc. by rewrite H in Hc.
Qed.

Lemma theme_field env url response soup :
  requests_get env (fetch_url url) = Returned response ->
  status_code response = 200 ->
  BeautifulSoup env (text response) = Returned soup ->
  check_website env url !! "theme"
  = Some (VStr (default "" (Re.search_theme (Str.lower (text response))))).
Proof.
  intros Hf Hc Hp. destruct (check_website_200 _ _ _ _ Hf Hc Hp) as [-> Hret].
  destruct (Re.search_theme (Str.lower (text response))) as [t|] eqn:E; simpl.
  - assert (assigns "theme" (VStr t) (inspect_parsed env response soup)) as Hk.
    { unfold inspect_parsed. rewrite E. solve_assigns. }
    by apply (Hk _ tt).
  - assert (preserves (fun d => d !! "theme" = Some (VStr ""))
              (inspect_parsed env response soup)) as Hk.
    { unfold inspect_parsed. rewrite E. solve_preserves. }
    apply Hk. lookup_field.
Qed.

Lemma is_wordpress_field env url response soup :
  requests_get env (fetch_url url) = Returned response ->
  status_code response = 200 ->
  BeautifulSoup env (text response) = Returned soup ->
  check_website env url !! "is_wordpress"
  = Some (VBool (Str.contains "wp-content" (Str.lower (text response))
                 || is_some (find_generator soup))).
Proof.
  intros Hf Hc Hp. destruct (check_website_200 _ _ _ _ Hf Hc Hp) as [-> Hret].
  destruct (Str.contains "wp-content" (Str.lower (text response))) eqn:E1;
    [|destruct (is_some (find_generator soup)) eqn:E2]; simpl.
  - assert (assigns "is_wordpress" (VBool true) (inspect_parsed env response soup)) as Hk.
    { unfold inspect_parsed. rewrite E1. solve_assigns. }
    by apply (Hk _ tt).
  - assert (assigns "is_wordpress" (VBool true) (inspect_parsed env response soup)) as Hk.
    { unfold inspect_parsed. rewrite E1, E2. solve_assigns. }
    by apply (Hk _ tt).
  - assert (preserves (fun d => d !! "is_wordpress" = Some (VBool false))
              (inspect_parsed env response soup)) as Hk.
    { unfold inspect_parsed. rewrite E1, E2. solve_preserves. }
    apply Hk. lookup_field.
Qed.

(** X6.  A non-empty [theme] comes from an inspected response: it is a
    slug of lower-case letters, digits, [_] and [-] that stands in the
    lower-cased body as [wp-content/themes/<slug>/]. *)
Theorem X6_theme_is_a_path env url t :
  check_website env url !! "theme" = Some (VStr t) ->
  t <> "" ->
  exists response,
    inspected env url = Some response
    /\ path_in "wp-content/themes/" t (Str.lower (text response))
    /\ all_chars Re.theme_char t = true.
Proof.
  intros Ht Hne. destruct (inspected env url) as [response|] eqn:Hi.
  - exists response. split; [done|].
    destruct (inspected_some _ _ _ Hi) as (soup & Hf & Hc & Hp).
    rewrite (theme_field _ _ _ _ Hf Hc Hp) in Ht.
    destruct (Re.search_theme (Str.lower (text response))) as [t'|] eqn:E;
      simpl in Ht; [|congruence].
    injection Ht as ->. apply search_slug_spec in E as (Hpath & Hall & _). done.
  - rewrite (not_inspected _ _ Hi) in Ht by key_not_in.
    exfalso. apply Hne. revert Ht. lookup_field. congruence.
Qed.

Lemma X6_theme_is_a_path_witness :
  exists response,
    inspected (serving 200 "<link href='/WP-Content/Themes/My-Theme/style.css'>" no_tags)
      "example.com" = Some response
    /\ path_in "wp-content/themes/" "my-theme" (Str.lower (text response))
    /\ all_chars Re.theme_char "my-theme" = true.
Proof.
  apply (X6_theme_is_a_path
           (serving 200 "<link href='/WP-Content/Themes/My-Theme/style.css'>" no_tags)
           "example.com" "my-theme").
  - reflexivity.
  - discriminate.
Defined.

(** X7.  Every slug of a record's plugin set is non-empty, is made of
    lower-case letters, digits, [_] and [-] only (the capitals the
    pattern allows never occur, the body being lower-cased first), and
    stands in the lower-cased body as [wp-content/plugins/<slug>/]. *)
Theorem X7_plugin_slugs env url slug :
  slug ∈ plugin_set env url ->
  slug <> ""
  /\ all_chars Re.theme_char slug = true
  /\ exists response,
       inspected env url = Some response
       /\ path_in "wp-content/plugins/" slug (Str.lower (text response)).
Proof.
  unfold plugin_set. destruct (inspected env url) as [response|]; [|set_solver].
  intros Hin%elem_of_list_to_set.
  apply findall_slug_spec in Hin as (Hpath & Hall & Hne).
  split_and!; [done| |by exists response].
  apply all_chars_lower_slug; [done|]. by apply path_in_lower in Hpath.
Qed.

Lemma X7_plugin_slugs_witness :
  "foo" ∈ plugin_set (serving 200 "<script src='/wp-content/plugins/FOO/a.js'>" no_tags)
            "example.com"
  /\ all_chars Re.theme_char "foo" = true.
Proof.
  assert ("foo" ∈ plugin_set
            (serving 200 "<script src='/wp-content/plugins/FOO/a.js'>" no_tags)
            "example.com") as Hin.
  { apply elem_of_list_to_set. apply list_elem_of_In. left. reflexivity. }
  split; [exact Hin|].
  exact (proj1 (proj2 (X7_plugin_slugs _ _ _ Hin))).
Defined.

(** X8.  The WordPress signals agree: a record with a non-empty [theme]
    or a non-zero [plugin_count] has [is_wordpress] true. *)
Theorem X8_signals_agree env url t n :
  set_order_ok env ->
  check_website env url !! "theme" = Some (VStr t) ->
  check_website env url !! "plugin_count" = Some (VInt n) ->
  t <> "" \/ n <> 0 ->
  check_website env url !! "is_wordpress" = Some (VBool true).
Proof.
  intros Hord Ht Hn Hsig. destruct (inspected env url) as [response|] eqn:Hi.
  - destruct (inspected_some _ _ _ Hi) as (soup & Hf & Hc & Hp).
    rewrite (is_wordpress_field _ _ _ _ Hf Hc Hp).
    destruct (Str.contains "wp-content" (Str.lower (text response))) eqn:E; [done|].
    exfalso.
    rewrite (theme_field _ _ _ _ Hf Hc Hp), (no_marker_no_theme _ E) in Ht.
    destruct (check_website_200 _ _ _ _ Hf Hc Hp) as [Hcw Hret].
    rewrite Hcw, (inspect_parsed_plugin_count _ _ _ _ _ Hret) in Hn.
    rewrite (no_marker_no_plugins _ E) in Hn. simpl in Hn, Ht.
    rewrite list_of_set_empty in Hn by done.
    injection Ht as <-. injection Hn as <-. by destruct Hsig.
  - exfalso. rewrite (not_inspected _ _ Hi) in Ht by key_not_in.
    rewrite (not_inspected _ _ Hi) in Hn by key_not_in.
    revert Ht Hn. lookup_field. intros [= <-] [= <-]. by destruct Hsig.
Qed.

Lemma X8_signals_agree_witness :
  check_website
    (serving 200 "<link href='/wp-content/themes/astra/style.css'>" no_tags)
    "example.com" !! "is_wordpress" = Some (VBool true).
Proof.
  apply (X8_signals_agree _ "example.com" "astra" 0).
  - intros X. reflexivity.
  - reflexivity.
  - reflexivity.
  - left. discriminate.
Defined.

(** *** Technology flags *)

Lemma contains_startswith p s : Str.startswith p s = true -> Str.contains p s = true.
Proof. intros H. destruct s; simpl in *; by rewrite H. Qed.

Lemma contains_cons p c s : Str.contains p s = true -> Str.contains p (String c s) = true.
Proof.
  intros H. change (Str.contains p (String c s))
    with (Str.startswith p (String c s) || Str.contains p s).
  by rewrite H, orb_true_r.
Qed.

Lemma contains_middle p pre post : Str.contains p (pre +:+ p +:+ post) = true.
Proof.
  induction pre as [|c pre IH].
  - apply contains_startswith, startswith_spec. by exists post.
  - rewrite append_cons. by apply contains_cons.
Qed.

Lemma flag_fields env url response soup :
  requests_get env (fetch_url url) = Returned response ->
  status_code response = 200 ->
  BeautifulSoup env (text response) = Returned soup ->
  let r := check_website env url in
  let html := Str.lower (text response) in
  r !! "has_woocommerce" = Some (VBool (Str.contains "woocommerce" html))
  /\ r !! "has_shopify" = Some (VBool (Str.contains "shopify" html))
  /\ r !! "has_elementor" = Some (VBool (Str.contains "elementor" html))
  /\ r !! "has_beaver_builder" = Some (VBool (Str.contains "beaver-builder" html))
  /\ r !! "has_analytics"
     = Some (VBool (Str.contains "googletagmanager" html
                    || Str.contains "google-analytics" html))
  /\ r !! "has_pixel"
     = Some (VBool (Str.contains "facebook-pixel" html
                    || Str.contains "fbevents.js" html)).
Proof.
  intros Hf Hc Hp r html. subst r html.
  destruct (check_website_200 _ _ _ _ Hf Hc Hp) as [-> Hret].
  split_and!;
    match goal with
    | |- _ !! ?k = Some ?v =>
        assert (assigns k v (inspect_parsed env response soup)) as Hk
          by (unfold inspect_parsed; solve_assigns);
        by apply (Hk _ tt)
    end.
Qed.

Ltac in_list :=
  repeat first [apply list_elem_of_here | apply list_elem_of_further].

(** X9.  For a 200 response that is parsed, a technology flag is true
    exactly when the lower-cased body contains one of its trigger texts;
    so a trigger written in any mix of letter cases sets the flag. *)
Theorem X9_technology_flags env url response soup trigger flag :
  requests_get env (fetch_url url) = Returned response ->
  status_code response = 200 ->
  BeautifulSoup env (text response) = Returned soup ->
  (trigger, flag) ∈ triggers ->
  let r := check_website env url in
  let html := Str.lower (text response) in
  (Str.contains trigger html = true -> r !! flag = Some (VBool true))
  /\ (r !! flag = Some (VBool true) ->
      exists trigger', (trigger', flag) ∈ triggers
                       /\ Str.contains trigger' html = true)
  /\ (forall pre w post,
         text response = pre +:+ w +:+ post -> Str.lower w = trigger ->
         r !! flag = Some (VBool true)).
Proof.
  intros Hf Hc Hp Hin r html.
  assert ((Str.contains trigger html = true -> r !! flag = Some (VBool true))
          /\ (r !! flag = Some (VBool true) ->
              exists trigger', (trigger', flag) ∈ triggers
                               /\ Str.contains trigger' html = true)) as [H1 H2].
  { destruct (flag_fields _ _ _ _ Hf Hc Hp) as (Hw & Hs & He & Hb & Ha & Hx).
    fold r html in Hw, Hs, He, Hb, Ha, Hx. unfold triggers in Hin.
    repeat (apply elem_of_cons in Hin as [[= -> ->]|Hin]);
      [..|by apply elem_of_nil in Hin].
    - rewrite Hw. split; [by intros ->|intros [= E]].
      exists "woocommerce". split; [unfold triggers; in_list|done].
    - rewrite Hs. split; [by intros ->|intros [= E]].
      exists "shopify". split; [unfold triggers; in_list|done].
    - rewrite He. split; [by intros ->|intros [= E]].
      exists "elementor". split; [unfold triggers; in_list|done].
    - rewrite Hb. split; [by intros ->|intros [= E]].
      exists "beaver-builder". split; [unfold triggers; in_list|done].
    - rewrite Ha. split; [by intros ->|intros [= E]].
      apply orb_prop in E as [E|E].
      + exists "googletagmanager". split; [unfold triggers; in_list|done].
      + exists "google-analytics". split; [unfold triggers; in_list|done].
    - rewrite Ha. split; [intros ->; by rewrite orb_true_r|intros [= E]].
      apply orb_prop in E as [E|E].
      + exists "googletagmanager". split; [unfold triggers; in_list|done].
      + exists "google-analytics". split; [unfold triggers; in_list|done].
    - rewrite Hx. split; [by intros ->|intros [= E]].
      apply orb_prop in E as [E|E].
      + exists "facebook-pixel". split; [unfold triggers; in_list|done].
      + exists "fbevents.js". split; [unfold triggers; in_list|done].
    - rewrite Hx. split; [intros ->; by rewrite orb_true_r|intros [= E]].
      apply orb_prop in E as [E|E].
      + exists "facebook-pixel". split; [unfold triggers; in_list|done].
      + exists "fbevents.js". split; [unfold triggers; in_list|done]. }
  split_and!; [done|done|].
  intros pre w post Ht Hw. apply H1. unfold html.
  rewrite Ht, !lower_app, Hw. apply contains_middle.
Qed.

Lemma X9_technology_flags_witness :
  check_website (serving 200 "<script src='/js/WooCommerce.min.js'></script>" no_tags)
    "example.com" !! "has_woocommerce" = Some (VBool true).
Proof.
  refine (proj2 (proj2 (X9_technology_flags
            (serving 200 "<script src='/js/WooCommerce.min.js'></script>" no_tags)
            "example.com"
            {| status_code := 200;
               text := "<script src='/js/WooCommerce.min.js'></script>" |}
            no_tags "woocommerce" "has_woocommerce" eq_refl eq_refl eq_refl _))
          "<script src='/js/" "WooCommerce" ".min.js'></script>" eq_refl eq_refl).
  unfold triggers. in_list.
Defined.

(** *** The copyright year, both ways *)

(** X10.  For a 200 response that is parsed, [copyright_year] is not
    empty exactly when, in the lower-cased body, a [copyright] keyword or
    the glyph is followed on the same line by a year [20dd]. *)
Theorem X10_copyright_year_found env url response soup :
  requests_get env (fetch_url url) = Returned response ->
  status_code response = 200 ->
  BeautifulSoup env (text response) = Returned soup ->
  (exists y, check_website env url !! "copyright_year" = Some (VStr y) /\ y <> "")
  <-> keyword_then_year (Str.lower (text response)).
Proof.
  intros Hf Hc Hp. rewrite (copyright_year_field _ _ _ _ Hf Hc Hp). split.
  - intros (y & [= <-] & Hne).
    destruct (Re.search_copyright (Str.lower (text response))) as [y|] eqn:E; [|done].
    by apply search_copyright_spec, year_follows_keyword_then_year in E as [? _].
  - intros (y & Hy)%search_copyright_complete. exists y. rewrite Hy. split; [done|].
    by apply search_copyright_spec, year_follows_keyword_then_year in Hy as [_ ?].
Qed.

Lemma X10_copyright_year_found_witness :
  exists y,
    check_website (serving 200 "<p>COPYRIGHT Acme, 2019-2023</p>" no_tags)
      "example.com" !! "copyright_year" = Some (VStr y)
    /\ y <> "".
Proof.
  apply (X10_copyright_year_found
           (serving 200 "<p>COPYRIGHT Acme, 2019-2023</p>" no_tags) "example.com"
           {| status_code := 200; text := "<p>COPYRIGHT Acme, 2019-2023</p>" |}
           no_tags eq_refl eq_refl eq_refl).
  exists "<p>", "copyright", " acme, ", "-2023</p>", "1"%char, "9"%char.
  split; [reflexivity|]. split; [by left|]. split; [reflexivity|].
  split; reflexivity.
Defined.

(** *** WordPress and viewport, both ways *)

Lemma find_is_some {A} (f : A -> bool) (l : list A) :
  is_some (List.find f l) = true <-> exists x, x ∈ l /\ f x = true.
Proof.
  induction l as [|a l IH]; simpl.
  - split; [done|]. by intros (x & ?%elem_of_nil & _).
  - destruct (f a) eqn:Ea.
    + split; [|done]. intros _. exists a. split; [apply list_elem_of_here|done].
    + rewrite IH. split.
      * intros (x & Hx & Hf). exists x. split; [by apply list_elem_of_further|done].
      * intros (x & [->|Hx]%elem_of_cons & Hf); [congruence|by exists x].
Qed.

Lemma find_generator_is_some soup :
  is_some (find_generator soup) = true <-> has_generator_meta soup.
Proof.
  unfold find_generator, has_generator_meta. rewrite find_is_some. split.
  - intros (tag & Hin & [Hn%bool_decide_eq_true Hm]%andb_prop).
    destruct (tag !! "content") as [c|] eqn:Hc; [|done]. by exists tag, c.
  - intros (tag & c & Hin & Hn & Hc & Hm). exists tag. split; [done|].
    rewrite Hc. simpl. rewrite Hm, andb_true_r. by apply bool_decide_eq_true.
Qed.

Lemma has_viewport_field env url response soup :
  requests_get env (fetch_url url) = Returned response ->
  status_code response = 200 ->
  BeautifulSoup env (text response) = Returned soup ->
  check_website env url !! "has_viewport"
  = Some (VBool (is_some (find_meta "viewport" soup))).
Proof.
  intros Hf Hc Hp. destruct (check_website_200 _ _ _ _ Hf Hc Hp) as [-> Hret].
  destruct (is_some (find_meta "viewport" soup)) eqn:E.
  - assert (assigns "has_viewport" (VBool true) (inspect_parsed env response soup)) as Hk.
    { unfold inspect_parsed. rewrite E. solve_assigns. }
    by apply (Hk _ tt).
  - assert (preserves (fun d => d !! "has_viewport" = Some (VBool false))
              (inspect_parsed env response soup)) as Hk.
    { unfold inspect_parsed. rewrite E. solve_preserves. }
    apply Hk. lookup_field.
Qed.

(** X11.  For a 200 response that is parsed, [is_wordpress] is true
    exactly when the lower-cased body contains [wp-content] or the
    document has a generator [meta] tag matching [WordPress]; and
    [has_viewport] is true exactly when the document has a [meta] tag
    named [viewport], whatever its content. *)
Theorem X11_wordpress_and_viewport env url response soup :
  requests_get env (fetch_url url) = Returned response ->
  status_code response = 200 ->
  BeautifulSoup env (text response) = Returned soup ->
  (check_website env url !! "is_wordpress" = Some (VBool true)
   <-> Str.contains "wp-content" (Str.lower (text response)) = true
       \/ has_generator_meta soup)
  /\ (check_website env url !! "has_viewport" = Some (VBool true)
      <-> exists tag, tag ∈ metas soup /\ tag !! "name" = Some "viewport").
Proof.
  intros Hf Hc Hp.
  rewrite (is_wordpress_field _ _ _ _ Hf Hc Hp), (has_viewport_field _ _ _ _ Hf Hc Hp).
  split.
  - rewrite <- find_generator_is_some. split.
    + intros [= E]. by apply orb_prop in E.
    + intros [-> | ->]; [done|by rewrite orb_true_r].
  - unfold find_meta. split.
    + intros [= E]. apply find_is_some in E as (tag & Hin & Ht%bool_decide_eq_true).
      by exists tag.
    + intros (tag & Hin & Ht). do 2 f_equal. apply find_is_some.
      exists tag. split; [done|by apply bool_decide_eq_true].
Qed.

Lemma X11_wordpress_and_viewport_witness :
  let soup := {| title := None;
                 metas := [ {[ "name" := "viewport"; "content" := "" ]};
                            {[ "name" := "generator";
                               "content" := "WORDPRESS 6.4" ]} ] |} in
  let r := check_website (serving 200 "<html></html>" soup) "example.com" in
  r !! "is_wordpress" = Some (VBool true)
  /\ r !! "has_viewport" = Some (VBool true).
Proof.
  intros soup r.
  destruct (X11_wordpress_and_viewport (serving 200 "<html></html>" soup)
              "example.com" {| status_code := 200; text := "<html></html>" |} soup
              eq_refl eq_refl eq_refl) as [Hw Hv].
  split.
  - apply Hw. right.
    exists {[ "name" := "generator"; "content" := "WORDPRESS 6.4" ]}, "WORDPRESS 6.4".
    split; [apply list_elem_of_further, list_elem_of_here|].
    split; [reflexivity|]. split; reflexivity.
  - apply Hv. exists {[ "name" := "viewport"; "content" := "" ]}.
    split; [apply list_elem_of_here|reflexivity].
Defined.

(** ** Further properties of [main] *)

(** *** Flushes, for any number of URLs *)

Lemma batch_sizes_shape total coming :
  forall index buffered,
    (index + coming = S total)%nat ->
    (buffered < BATCH_SIZE)%nat ->
    (coming = 0%nat -> buffered = 0%nat) ->
    let sizes := batch_sizes total index buffered coming in
    sum_list sizes = (buffered + coming)%nat
    /\ Forall (fun k => (1 <= k <= BATCH_SIZE)%nat) sizes
    /\ forall i, (S i < length sizes)%nat -> sizes !! i = Some BATCH_SIZE.
Proof.
  induction coming as [|rest IH]; intros index buffered Hidx Hbuf Hzero.
  - rewrite (Hzero eq_refl). simpl. split_and!; [done|constructor|].
    intros i Hi. simpl in Hi. lia.
  - cbn [batch_sizes].
    destruct (Nat.leb_spec BATCH_SIZE (S buffered)) as [Hfull|Hroom].
    + rewrite orb_true_l.
      destruct (IH (S index) 0%nat) as (Hsum & Hall & Hlast);
        [lia|unfold BATCH_SIZE; lia|done|].
      assert (S buffered = BATCH_SIZE) as Heq by lia.
      split_and!.
      * simpl. rewrite Hsum. lia.
      * constructor; [lia|done].
      * intros [|i] Hi; [by rewrite Heq|]. simpl in *. apply Hlast. lia.
    + rewrite orb_false_l. destruct (Nat.eqb_spec index total) as [->|Hne].
      * assert (rest = 0%nat) as -> by lia. simpl.
        split_and!; [lia|constructor; [lia|constructor]|].
        intros i Hi. simpl in Hi. lia.
      * destruct (IH (S index) (S buffered)) as (Hsum & Hall & Hlast);
          [lia|lia|lia|].
        split_and!; [rewrite Hsum; lia|done|done].
Qed.

Lemma concat_rows_of (l : list (list dict)) :
  writerow <$> concat l = concat (rows_of <$> l).
Proof.
  induction l as [|b l IH]; [done|]. simpl. by rewrite fmap_app, IH.
Qed.

(** X12.  Whatever the number of URLs, the run writes the header once,
    before any batch; then every flush appends between 1 and 100 rows,
    every flush but the last exactly 100; and the rows of the flushes,
    in order, are the data rows of the file. *)
Theorem X12_flushes envs w rows :
  websites_csv w = Some rows ->
  exists chunks,
    output_log (main envs w)
    = output_log w ++ WroteHeader (VStr <$> fieldnames) :: (Appended <$> chunks)
    /\ results_csv (main envs w) = Some ((VStr <$> fieldnames) :: concat chunks)
    /\ sum_list (length <$> chunks) = length (read_websites rows)
    /\ Forall (fun c => (1 <= length c <= BATCH_SIZE)%nat) chunks
    /\ forall i, (S i < length chunks)%nat ->
                 length <$> chunks !! i = Some BATCH_SIZE.
Proof.
  intros Hrows. destruct (main_files envs w rows Hrows) as [Hr Hl].
  set (websites := read_websites rows) in *.
  set (coming := records envs 1 websites) in *.
  set (flushed := batches (length websites) 1 [] coming) in *.
  assert (length coming = length websites) as Hc by apply records_length.
  pose proof (batches_sizes (length websites) coming 1 []) as Hs.
  fold flushed in Hs. simpl in Hs. rewrite Hc in Hs.
  destruct (batch_sizes_shape (length websites) (length websites) 1 0)
    as (Hsum & Hall & Hlast); [lia|unfold BATCH_SIZE; lia|done|].
  rewrite <- Hs in Hsum, Hall, Hlast.
  exists (rows_of <$> flushed).
  assert (length <$> (rows_of <$> flushed) = length <$> flushed) as Hlen.
  { rewrite <- list_fmap_compose. apply list_fmap_ext. intros _ b _. simpl.
    apply length_fmap. }
  split_and!.
  - rewrite Hl. by rewrite <- list_fmap_compose.
  - rewrite Hr. do 2 f_equal.
    rewrite <- concat_rows_of. f_equal. symmetry.
    unfold flushed. rewrite batches_concat; [done|lia|by right].
  - rewrite Hlen. rewrite Hsum. lia.
  - apply Forall_fmap. apply Forall_fmap in Hall.
    eapply Forall_impl; [exact Hall|]. intros b Hb. simpl in *.
    unfold rows_of. by rewrite length_fmap.
  - intros i Hi. rewrite length_fmap in Hi.
    rewrite <- list_lookup_fmap, Hlen. apply Hlast. by rewrite length_fmap.
Qed.

Lemma X12_flushes_witness :
  exists chunks,
    output_log (main (fun _ => unreachable read_timeout) (world_with 3))
    = WroteHeader (VStr <$> fieldnames) :: (Appended <$> chunks)
    /\ sum_list (length <$> chunks) = 3%nat.
Proof.
  destruct (X12_flushes (fun _ => unreachable read_timeout) (world_with 3)
              (replicate 3 ["example.com"]) eq_refl)
    as (chunks & Hl & _ & Hsum & _).
  exists chunks. split; [exact Hl|exact Hsum].
Defined.

(** *** The input file *)

Lemma read_websites_cons row rows :
  read_websites (row :: rows)
  = match row with
    | [] => read_websites rows
    | cell :: _ => Str.strip cell :: read_websites rows
    end.
Proof. by destruct row. Qed.

Lemma read_websites_filter rows :
  read_websites rows
  = (fun row => Str.strip (hd "" row)) <$> filter (fun row => row <> []) rows.
Proof.
  induction rows as [|row rows IH]; [done|].
  rewrite read_websites_cons. destruct row as [|cell cells].
  - rewrite filter_cons_False; [done|]. by intros H.
  - rewrite filter_cons_True by done. by rewrite fmap_cons, IH.
Qed.

(** X13.  When the input file has no row with a cell, the run writes
    the header and nothing more: the output file holds the header row
    alone, no batch is appended, and the summary counts 0 websites. *)
Theorem X13_empty_input envs w rows :
  websites_csv w = Some rows ->
  Forall (fun row => row = []) rows ->
  results_csv (main envs w) = Some [VStr <$> fieldnames]
  /\ output_log (main envs w) = output_log w ++ [WroteHeader (VStr <$> fieldnames)]
  /\ stdout (main envs w)
     = stdout w ++
       [ [Lit "Reading from "; Fmt (VStr "websites.csv"); Lit "..."];
         [Lit "Found "; Fmt (VInt 0); Lit " websites. Starting check..."];
         Lit nl :: rule;
         [Lit "DONE! All "; Fmt (VInt 0); Lit " websites checked."];
         [Lit "Results saved to "; Fmt (VStr "results.csv")];
         rule ].
Proof.
  intros Hrows Hall.
  assert (read_websites rows = []) as Hnone.
  { clear Hrows. induction Hall as [|row l Hrow Hl IH]; [done|].
    by rewrite read_websites_cons, Hrow. }
  unfold main. cbn [websites_csv print]. rewrite Hrows, Hnone.
  cbn -[fieldnames rule]. split_and!; [done|done|].
  by rewrite <- !app_assoc.
Qed.

Lemma X13_empty_input_witness :
  results_csv
    (main (fun _ => unreachable read_timeout)
       {| websites_csv := Some [[]; []]; results_csv := Some [[VStr "stale"]];
          output_log := []; stdout := [] |})
  = Some [VStr <$> fieldnames].
Proof.
  refine (proj1 (X13_empty_input (fun _ => unreachable read_timeout)
                   {| websites_csv := Some [[]; []];
                      results_csv := Some [[VStr "stale"]];
                      output_log := []; stdout := [] |}
                   [[]; []] eq_refl _)).
  repeat constructor.
Defined.

Lemma url_cell envs websites i url :
  websites !! i = Some url ->
  cell_at (writerow <$> records envs 1 websites) i 0 = Some (VStr url).
Proof.
  intros Hi. unfold cell_at.
  rewrite list_lookup_fmap, (records_lookup _ _ 1 i url Hi). simpl.
  apply (writerow_cell _ 0%nat "url"); [done|].
  rewrite early_field by in_list.
  destruct (requests_get _ _); lookup_field.
Qed.

(** X14.  The output file has one data row for each input row that has
    a cell, in the same order, and the [url] cell of that row is the
    first cell of the input row, stripped; rows without cells are
    skipped. *)
Theorem X14_row_per_url envs w rows :
  websites_csv w = Some rows ->
  exists data,
    results_csv (main envs w) = Some ((VStr <$> fieldnames) :: data)
    /\ length data = length (filter (fun row => row <> []) rows)
    /\ forall i cell cells,
         filter (fun row => row <> []) rows !! i = Some (cell :: cells) ->
         cell_at data i 0 = Some (VStr (Str.strip cell)).
Proof.
  intros Hrows. destruct (main_files envs w rows Hrows) as [Hr _].
  exists (writerow <$> records envs 1 (read_websites rows)).
  split_and!; [done| |].
  - by rewrite length_fmap, records_length, read_websites_filter, length_fmap.
  - intros i cell cells Hi. apply url_cell.
    by rewrite read_websites_filter, list_lookup_fmap, Hi.
Qed.

Lemma X14_row_per_url_witness :
  exists data,
    results_csv
      (main (fun _ => unreachable read_timeout)
         {| websites_csv := Some [[" a.com "; "x"]; []; ["b.com"]];
            results_csv := None; output_log := []; stdout := [] |})
    = Some ((VStr <$> fieldnames) :: data)
    /\ length data = 2%nat
    /\ cell_at data 1 0 = Some (VStr "b.com").
Proof.
  destruct (X14_row_per_url (fun _ => unreachable read_timeout)
              {| websites_csv := Some [[" a.com "; "x"]; []; ["b.com"]];
                 results_csv := None; output_log := []; stdout := [] |}
              [[" a.com "; "x"]; []; ["b.com"]] eq_refl)
    as (data & Hr & Hlen & Hcell).
  exists data. split; [exact Hr|]. split; [exact Hlen|].
  exact (Hcell 1%nat "b.com" [] eq_refl).
Defined.

(** X15.  A site that fails does not stop the run: its row is written
    like any other, with [status] the error message, and the file still
    has one row per URL. *)
Theorem X15_failed_site_row envs w rows i url st e :
  websites_csv w = Some rows ->
  read_websites rows !! i = Some url ->
  raised (envs (S i)) url = Some (st, e) ->
  exists data,
    results_csv (main envs w) = Some ((VStr <$> fieldnames) :: data)
    /\ length data = length (read_websites rows)
    /\ cell_at data i 1 = Some (VStr ("Error: " +:+ e)).
Proof.
  intros Hrows Hi Hraised. destruct (main_files envs w rows Hrows) as [Hr _].
  exists (writerow <$> records envs 1 (read_websites rows)).
  split_and!; [done|by rewrite length_fmap, records_length|].
  unfold cell_at.
  rewrite list_lookup_fmap, (records_lookup _ _ 1 i url Hi). simpl.
  apply (writerow_cell _ 1%nat "status"); [done|].
  rewrite status_field. unfold raised in Hraised.
  destruct (requests_get (envs (S i)) (fetch_url url)) as [e'|response];
    [by injection Hraised as _ ->|].
  destruct (status_code response =? 200); [|done].
  destruct (BeautifulSoup (envs (S i)) (text response)) as [e'|soup]; [|done].
  by injection Hraised as _ ->.
Qed.

Lemma X15_failed_site_row_witness :
  let envs := fun i : nat =>
                if (i =? 2)%nat then unreachable read_timeout
                else serving 200 "<html></html>" no_tags in
  exists data,
    results_csv (main envs (world_with 3)) = Some ((VStr <$> fieldnames) :: data)
    /\ length data = 3%nat
    /\ cell_at data 1 1 = Some (VStr ("Error: " +:+ read_timeout)).
Proof.
  intros envs.
  exact (X15_failed_site_row envs (world_with 3) (replicate 3 ["example.com"])
           1%nat "example.com" Fetch read_timeout eq_refl eq_refl eq_refl).
Defined.

(** *** The display *)

Lemma take_len n s : (Str.len (Str.take n s) <= n)%nat.
Proof.
  unfold Str.len. revert s. induction n as [|n IH]; intros [|c s]; simpl; try lia.
  specialize (IH s). lia.
Qed.

Lemma take_prefix n s : Str.startswith (Str.take n s) s = true.
Proof.
  revert s. induction n as [|n IH]; intros [|c s]; simpl; try done.
  destruct (ascii_dec c c); [apply IH|done].
Qed.

Lemma take_all n s : (Str.len s <= n)%nat -> Str.take n s = s.
Proof.
  unfold Str.len. revert s.
  induction n as [|n IH]; intros [|c s]; simpl; try done; try lia.
  intros H. rewrite IH; [done|lia].
Qed.

Lemma print_details_stdout result w :
  exists title_line wp theme plugins tech health,
    stdout (print_details result w)
    = stdout w ++ [title_line; wp; theme; plugins; tech; health]
    /\ title_line
       = (if (50 <? Str.len (getstr result "site_title"))%nat
          then [Lit "  Title:    ";
                Fmt (VStr (Str.take 50 (getstr result "site_title"))); Lit "..."]
          else [Lit "  Title:    "; Fmt (VStr (getstr result "site_title"))])
    /\ plugins
       = [Lit "  Plugins:  "; Fmt (getitem result "plugin_count"); Lit " (";
          Fmt (VStr (Str.take 60 (getstr result "plugin_names"))); Lit "...)"].
Proof.
  do 6 eexists. split; [|split; reflexivity].
  unfold print_details, print. cbn [stdout]. by rewrite <- !app_assoc.
Qed.

(** X16.  Of a record the display shows at most the first 50 characters
    of the title (the whole title when it is no longer, three dots after
    it otherwise) and at most the first 60 characters of the plugin
    names; displaying a record touches no file. *)
Theorem X16_display_is_cut result w :
  let site_title := getstr result "site_title" in
  let plugin_names := getstr result "plugin_names" in
  exists shown shown',
    stdout (print_details result w) !! length (stdout w)
    = Some ([Lit "  Title:    "; Fmt (VStr shown)]
            ++ if (50 <? Str.len site_title)%nat then [Lit "..."] else [])
    /\ (Str.len shown <= 50)%nat
    /\ Str.startswith shown site_title = true
    /\ ((Str.len site_title <= 50)%nat -> shown = site_title)
    /\ stdout (print_details result w) !! (length (stdout w) + 3)%nat
       = Some [Lit "  Plugins:  "; Fmt (getitem result "plugin_count"); Lit " (";
               Fmt (VStr shown'); Lit "...)"]
    /\ (Str.len shown' <= 60)%nat
    /\ Str.startswith shown' plugin_names = true
    /\ results_csv (print_details result w) = results_csv w
    /\ output_log (print_details result w) = output_log w.
Proof.
  intros site_title plugin_names.
  destruct (print_details_stdout result w)
    as (l1 & l2 & l3 & l4 & l5 & l6 & Hout & H1 & H4).
  fold site_title in H1. fold plugin_names in H4.
  exists (Str.take 50 site_title), (Str.take 60 plugin_names).
  rewrite Hout. split_and!.
  - rewrite lookup_app_r by lia. rewrite Nat.sub_diag, H1.
    destruct (Nat.ltb_spec 50 (Str.len site_title)); [done|].
    by rewrite (take_all 50 site_title).
  - apply take_len.
  - apply take_prefix.
  - apply take_all.
  - rewrite lookup_app_r by lia.
    replace (length (stdout w) + 3 - length (stdout w))%nat with 3%nat by lia.
    simpl. by rewrite H4.
  - apply take_len.
  - apply take_prefix.
  - done.
  - done.
Qed.

(** *** Runs *)

Lemma blind_ret {A} k0 (a : A) : blind k0 (Try.ret a).
Proof. by intros d1 d2 H. Qed.

Lemma blind_call {A} k0 (o : outcome A) : blind k0 (Try.call o).
Proof. by intros d1 d2 H. Qed.

Lemma same_but_insert k0 k v d1 d2 :
  same_but k0 d1 d2 -> same_but k0 (<[k := v]> d1) (<[k := v]> d2).
Proof.
  intros H k' Hk'. destruct (decide (k = k')) as [->|Hne].
  - by rewrite !lookup_insert_eq.
  - rewrite !lookup_insert_ne by done. by apply H.
Qed.

Lemma blind_set k0 k v : blind k0 (Try.set_item k v).
Proof. intros d1 d2 H. split; [done|]. by apply same_but_insert. Qed.

Lemma blind_bind {A B} k0 (m : Try.M A) (f : A -> Try.M B) :
  blind k0 m -> (forall a, blind k0 (f a)) -> blind k0 (m ≫= f).
Proof.
  intros Hm Hf d1 d2 H. destruct (Hm d1 d2 H) as [Ho Hd].
  unfold mbind, try_bind, Try.bind.
  destruct (m d1) as [[e|a] d1'], (m d2) as [[e'|a'] d2']; simpl in *;
    try discriminate.
  - injection Ho as <-. by split.
  - injection Ho as <-. by apply Hf.
Qed.

Lemma blind_when k0 b (m : Try.M unit) : blind k0 m -> blind k0 (Try.when b m).
Proof. intros Hm. destruct b; [exact Hm|apply blind_ret]. Qed.

Ltac blind_step :=
  first
    [ progress cbv beta iota
    | apply blind_bind; [|intros ?]
    | apply blind_when
    | apply blind_ret
    | apply blind_call
    | apply blind_set
    | match goal with
      | |- blind _ (match ?x with _ => _ end) => destruct x
      end ].

Lemma inspect_blind env response k0 : blind k0 (inspect env response).
Proof. unfold inspect, inspect_parsed. repeat blind_step. Qed.

Lemma inspect_same_answers env env' response :
  same_answers env env' -> inspect env response = inspect env' response.
Proof.
  intros (_ & Hbs & Hls). unfold inspect, inspect_parsed. by rewrite Hbs, Hls.
Qed.

Lemma responded_same_but env env' url response :
  same_but "load_time_seconds"
    (responded env url response) (responded env' url response).
Proof.
  intros k Hk. unfold responded. destruct (decide (k = "status")) as [->|Hs].
  - by rewrite !lookup_insert_eq.
  - by rewrite !(lookup_insert_ne _ "status"), !(lookup_insert_ne _ "load_time_seconds").
Qed.

(** The clock decides [load_time_seconds] and nothing else. *)
Lemma check_website_same_but env env' url :
  same_answers env env' ->
  same_but "load_time_seconds" (check_website env url) (check_website env' url).
Proof.
  intros Hsame. pose proof Hsame as (Hrg & _).
  rewrite !check_website_unfold, <- Hrg.
  destruct (requests_get env (fetch_url url)) as [e|response]; [done|].
  destruct (status_code response =? 200); [|apply responded_same_but].
  rewrite <- (inspect_same_answers env env' response Hsame).
  destruct (inspect_blind env response "load_time_seconds" _ _
              (responded_same_but env env' url response)) as [Ho Hd].
  destruct (inspect env response (responded env url response)) as [[e|[]] d1],
           (inspect env response (responded env' url response)) as [[e'|[]] d2];
    simpl in *; try discriminate; [|done].
  injection Ho as <-. unfold handler. by do 2 apply same_but_insert.
Qed.

Lemma check_website_same env env' url :
  same_answers env env' -> elapsed env = elapsed env' ->
  check_website env url = check_website env' url.
Proof.
  intros Hsame Hel. pose proof Hsame as (Hrg & _).
  rewrite !check_website_unfold, <- Hrg.
  destruct (requests_get env (fetch_url url)) as [e|response]; [done|].
  rewrite <- (inspect_same_answers env env' response Hsame).
  unfold responded. by rewrite Hel.
Qed.

Lemma fieldnames_load_time j :
  fieldnames !! j = Some "load_time_seconds" -> j = 2%nat.
Proof.
  unfold fieldnames.
  do 18 (destruct j as [|j];
         [intros H; first [reflexivity | simpl in H; discriminate H]|]).
  intros H. simpl in H. discriminate H.
Qed.

Lemma writerow_same_but d1 d2 j :
  same_but "load_time_seconds" d1 d2 -> j <> 2%nat ->
  writerow d1 !! j = writerow d2 !! j.
Proof.
  intros H Hj. unfold writerow. rewrite !list_lookup_fmap.
  destruct (fieldnames !! j) as [key|] eqn:E; [|done]. simpl.
  rewrite H; [done|]. intros ->. by apply fieldnames_load_time in E.
Qed.

Lemma records_same_but envs envs' websites :
  (forall i, same_answers (envs i) (envs' i)) ->
  forall index,
    Forall2 (same_but "load_time_seconds")
      (records envs index websites) (records envs' index websites).
Proof.
  intros Hsame. induction websites as [|url rest IH]; intros index; [constructor|].
  simpl. constructor; [by apply check_website_same_but|apply IH].
Qed.

Lemma records_same envs envs' websites :
  (forall i, same_answers (envs i) (envs' i)) ->
  (forall i, elapsed (envs i) = elapsed (envs' i)) ->
  forall index, records envs index websites = records envs' index websites.
Proof.
  intros Hsame Hel. induction websites as [|url rest IH]; intros index; [done|].
  simpl. by rewrite IH, (check_website_same (envs index) (envs' index)).
Qed.

Lemma main_keeps_input envs w rows :
  websites_csv w = Some rows -> websites_csv (main envs w) = Some rows.
Proof.
  intros Hrows. unfold main. cbn [websites_csv print]. rewrite Hrows.
  cbn [websites_csv print].
  set (w1 := write_header _).
  destruct (check_all_files envs (length (read_websites rows)) (read_websites rows)
              1 [] w1 [VStr <$> fieldnames] eq_refl) as (_ & _ & Hi).
  rewrite Hi. exact Hrows.
Qed.

(** X17.  The output file is rewritten, not extended, and the clock
    reaches one column only: two runs on the same input during which
    the network, the parser and the enumeration of sets answer alike
    leave files with the same header and the same number of rows that
    agree in every cell outside the [load_time_seconds] column, whatever
    the output file held before either run; when the rounded elapsed
    times agree too, the files are equal. *)
Theorem X17_output_is_rewritten envs envs' w w' rows :
  websites_csv w = Some rows ->
  websites_csv w' = Some rows ->
  (forall i, same_answers (envs i) (envs' i)) ->
  exists data data',
    results_csv (main envs w) = Some ((VStr <$> fieldnames) :: data)
    /\ results_csv (main envs' w') = Some ((VStr <$> fieldnames) :: data')
    /\ length data = length data'
    /\ (forall i j, j <> 2%nat -> cell_at data i j = cell_at data' i j)
    /\ ((forall i, elapsed (envs i) = elapsed (envs' i)) -> data = data').
Proof.
  intros Hrows Hrows' Hsame.
  destruct (main_files envs w rows Hrows) as [Hr _].
  destruct (main_files envs' w' rows Hrows') as [Hr' _].
  exists (writerow <$> records envs 1 (read_websites rows)),
         (writerow <$> records envs' 1 (read_websites rows)).
  split_and!; [done|done| | |].
  - by rewrite !length_fmap, !records_length.
  - intros i j Hj. unfold cell_at. rewrite !list_lookup_fmap.
    pose proof (proj1 (Forall2_lookup _ _ _)
                  (records_same_but envs envs' (read_websites rows) Hsame 1) i) as H.
    destruct H as [d1 d2 H|]; simpl; [by apply writerow_same_but|done].
  - intros Hel. by rewrite (records_same envs envs' _ Hsame Hel).
Qed.

Lemma X17_output_is_rewritten_witness :
  exists data data',
    results_csv (main (fun _ => titled) (world_with 2))
    = Some ((VStr <$> fieldnames) :: data)
    /\ results_csv (main (fun _ => titled_later)
                      (main (fun _ => titled) (world_with 2)))
       = Some ((VStr <$> fieldnames) :: data')
    /\ length data = length data'
    /\ cell_at data 1 3 = cell_at data' 1 3.
Proof.
  destruct (X17_output_is_rewritten (fun _ => titled) (fun _ => titled_later)
              (world_with 2) (main (fun _ => titled) (world_with 2))
              (replicate 2 ["example.com"]) eq_refl eq_refl)
    as (data & data' & Hr & Hr' & Hlen & Hcell & _).
  { intros i. split; [reflexivity|]. split; reflexivity. }
  exists data, data'. split; [exact Hr|]. split; [exact Hr'|].
  split; [exact Hlen|]. apply Hcell. discriminate.
Defined.

(** The clock does reach the [load_time_seconds] column. *)
Example clock_reaches_load_time :
  cell_at (default [] (results_csv (main (fun _ => titled) (world_with 1)))) 1 2
  <> cell_at (default [] (results_csv (main (fun _ => titled_later) (world_with 1)))) 1 2.
Proof. vm_compute. discriminate. Qed.

(** *** The scheme *)

Lemma startswith_trans p q s :
  Str.startswith p q = true -> Str.startswith q s = true -> Str.startswith p s = true.
Proof.
  rewrite !startswith_spec. intros [r ->] [t ->]. exists (r +:+ t).
  apply append_assoc.
Qed.

(** X18.  A URL that starts with [https://] is fetched as it is and has
    [is_https] true; one that starts with [http://] is fetched as it is
    and has [is_https] false; one that does not start with [http] is
    fetched with [https://] in front and has [is_https] true. *)
Theorem X18_scheme_and_is_https env url :
  (Str.startswith "https://" url = true ->
   fetch_url url = url /\ check_website env url !! "is_https" = Some (VBool true))
  /\ (Str.startswith "http://" url = true ->
      fetch_url url = url /\ check_website env url !! "is_https" = Some (VBool false))
  /\ (Str.startswith "http" url = false ->
      fetch_url url = "https://" +:+ url
      /\ check_website env url !! "is_https" = Some (VBool true)).
Proof.
  rewrite is_https_field. split_and!.
  - intros H.
    assert (Str.startswith "http" url = true) as Hh
      by (by apply (startswith_trans "http" "https://")).
    assert (Str.startswith "https" url = true) as Hs
      by (by apply (startswith_trans "https" "https://")).
    unfold fetch_url. rewrite Hh. cbn [negb]. by rewrite Hs.
  - intros H.
    assert (Str.startswith "http" url = true) as Hh
      by (by apply (startswith_trans "http" "http://")).
    unfold fetch_url. rewrite Hh. cbn [negb]. split; [done|].
    apply startswith_spec in H as [r ->]. done.
  - intros H. unfold fetch_url. rewrite H. done.
Qed.

Lemma X18_scheme_and_is_https_witness :
  check_website (unreachable read_timeout) "http://example.com" !! "is_https"
  = Some (VBool false)
  /\ check_website (unreachable read_timeout) "example.com" !! "is_https"
     = Some (VBool true).
Proof.
  split.
  - exact (proj2 (proj1 (proj2 (X18_scheme_and_is_https
             (unreachable read_timeout) "http://example.com")) eq_refl)).
  - exact (proj2 (proj2 (proj2 (X18_scheme_and_is_https
             (unreachable read_timeout) "example.com")) eq_refl)).
Defined.
